(** * vlott, [versions/v2/timetable.py]: normalisation of the weekly timetable

    A shallow embedding of the name resolvers ([prep_subject],
    [prep_subject_short], [prep_group], [prep_teacher], [prep_classroom]),
    of the cache rule [trule] and of the normaliser [get_timetable_data],
    followed by the properties of the specification checked against them.

    Conventions of the embedding.
    - A Python [str] is a [string]; the literals of the source are kept in
      UTF-8.  Case mapping, [str.isupper], the class [\d] and [int] are
      written out for ASCII; bytes above 127 are left as they are.  The
      properties that depend on them are stated for ASCII strings
      ([Py.isascii]), on which they are those of Python.
    - A Python [int] is a [Z]; [int] of a string keeps CPython's limit on
      the number of digits of the string.
    - An exception is a value of [exn]; a computation that may raise
      returns a [result].
    - Objects of the repository that are not in this file's source
      (the lookup table returned by [get_data], the override files, the
      date helper [utils.date.monday_before], the clock) are arguments. *)

From Stdlib Require Import ZArith Ascii String List Lia DecimalString.
From stdpp Require Import base option list gmap strings sorting.

Set Default Proof Using "Type".

(** ** Exceptions *)

Inductive exn : Type :=
| KeyError
| IndexError
| ValueError
| TypeError
| AttributeError.

Inductive result (A : Type) : Type :=
| Ok (a : A)
| Raise (e : exn).
Arguments Ok {A} a.
Arguments Raise {A} e.

Definition bind {A B : Type} (m : result A) (f : A -> result B) : result B :=
  match m with
  | Ok a => f a
  | Raise e => Raise e
  end.

Notation "'let!' x ':=' m 'in' k" := (bind m (fun x => k))
  (at level 10, x name, m at level 100, k at level 200).

Definition is_ok {A : Type} (m : result A) : bool :=
  match m with Ok _ => true | Raise _ => false end.

(** ** Python strings and integers *)

Module Py.

Definition code (c : ascii) : N := N_of_ascii c.

Definition in_range (lo hi c : ascii) : bool :=
  ((code lo <=? code c) && (code c <=? code hi))%N.

Definition is_digit (c : ascii) : bool := in_range "0" "9" c.
Definition is_lower (c : ascii) : bool := in_range "a" "z" c.
Definition is_upper (c : ascii) : bool := in_range "A" "Z" c.

Definition eqb_ascii (a b : ascii) : bool := (code a =? code b)%N.

(** [str.lower], one character. *)
Definition lower_ascii (c : ascii) : ascii :=
  if is_upper c then ascii_of_N (code c + 32) else c.

Definition map_string (f : ascii -> ascii) (s : string) : string :=
  string_of_list_ascii (map f (list_ascii_of_string s)).

(** [s.lower()] *)
Definition lower (s : string) : string := map_string lower_ascii s.

(** [s.replace(old, new)] for one-character [old] and [new]. *)
Definition replace (old new : ascii) (s : string) : string :=
  map_string (fun c => if eqb_ascii c old then new else c) s.

(** [s.isupper()]: at least one cased character and no lowercase one. *)
Definition isupper (s : string) : bool :=
  let l := list_ascii_of_string s in
  existsb is_upper l && negb (existsb is_lower l).

(** Truth value of a string: the empty string is false. *)
Definition truthy (s : string) : bool :=
  match s with EmptyString => false | String _ _ => true end.

(** [str(n)] and the [{n}] of an f-string. *)
Definition str_of_int (n : Z) : string := NilZero.string_of_int (Z.to_int n).

Definition is_space (c : ascii) : bool :=
  let n := code c in
  (((9 <=? n) && (n <=? 13)) || ((28 <=? n) && (n <=? 32)))%N.

Fixpoint lstrip (l : list ascii) : list ascii :=
  match l with
  | c :: l' => if is_space c then lstrip l' else l
  | [] => []
  end.

Definition strip (l : list ascii) : list ascii :=
  rev (lstrip (rev (lstrip l))).

Definition digit_val (c : ascii) : Z := Z.of_N (code c) - 48.

(** The digits of a decimal literal; one underscore is allowed between
    two digits. *)
Fixpoint int_digits (acc : Z) (after_digit : bool) (l : list ascii) : result Z :=
  match l with
  | [] => if after_digit then Ok acc else Raise ValueError
  | c :: l' =>
      if is_digit c then int_digits (10 * acc + digit_val c) true l'
      else if eqb_ascii c "_" then
        if after_digit then int_digits acc false l' else Raise ValueError
      else Raise ValueError
  end.

Definition int_signed (l : list ascii) : result Z :=
  match l with
  | "+"%char :: l' => int_digits 0 false l'
  | "-"%char :: l' => let! n := int_digits 0 false l' in Ok (- n)%Z
  | _ => int_digits 0 false l
  end.

(** The limit on the number of digits of a string given to [int]
    ([sys.get_int_max_str_digits()], 4300 unless it is changed). *)
Definition int_max_str_digits : N := 4300.

Fixpoint count_digits (l : list ascii) : N :=
  match l with
  | [] => 0
  | c :: l' => ((if is_digit c then 1 else 0) + count_digits l')%N
  end.

(** [int(s)] for a string [s]. *)
Definition int (s : string) : result Z :=
  let l := strip (list_ascii_of_string s) in
  if (int_max_str_digits <? count_digits l)%N then Raise ValueError
  else int_signed l.

(** [s.isascii()] *)
Definition isascii (s : string) : bool :=
  forallb (fun c => (code c <? 128)%N) (list_ascii_of_string s).

(** Position addressed by the index [i] in a sequence of length [len]:
    a negative index counts from the end, anything else out of range
    raises [IndexError]. *)
Definition index (len : nat) (i : Z) : result nat :=
  if (0 <=? i)%Z && (i <? Z.of_nat len)%Z then Ok (Z.to_nat i)
  else if (- Z.of_nat len <=? i)%Z && (i <? 0)%Z then Ok (Z.to_nat (Z.of_nat len + i))
  else Raise IndexError.

(** [l[i]] *)
Definition getitem {A : Type} (l : list A) (i : Z) : result A :=
  let! n := index (length l) i in
  match l !! n with
  | Some x => Ok x
  | None => Raise IndexError
  end.

(** [l[i] = x] *)
Definition setitem {A : Type} (l : list A) (i : Z) (x : A) : result (list A) :=
  let! n := index (length l) i in Ok (<[n := x]> l).

(** [d[k]] for a dict [d]. *)
Definition dict_get {V : Type} (d : gmap string V) (k : string) : result V :=
  match d !! k with
  | Some v => Ok v
  | None => Raise KeyError
  end.

(** [k in d] *)
Definition dict_in {V : Type} (k : string) (d : gmap string V) : bool :=
  match d !! k with Some _ => true | None => false end.

(** [s.split(sep)] for a one-character separator. *)
Fixpoint split_list (sep : ascii) (l : list ascii) : list (list ascii) :=
  match l with
  | [] => [[]]
  | c :: l' =>
      if eqb_ascii c sep then [] :: split_list sep l'
      else
        match split_list sep l' with
        | w :: ws => (c :: w) :: ws
        | [] => [[c]]
        end
  end.

Definition split (sep : ascii) (s : string) : list string :=
  map string_of_list_ascii (split_list sep (list_ascii_of_string s)).

(** [x or d] for a list [x] that may be [None]: [None] and [[]] are false. *)
Definition or_list {A : Type} (x : option (list A)) (d : list A) : list A :=
  match x with
  | Some (a :: l) => a :: l
  | _ => d
  end.

(** [x or d] for an integer [x] that may be [None]: [None] and [0] are false. *)
Definition or_int (x : option Z) (d : Z) : Z :=
  match x with
  | Some n => if (n =? 0)%Z then d else n
  | None => d
  end.

(** [x or False] *)
Definition or_false (x : option bool) : bool :=
  match x with
  | Some b => b
  | None => false
  end.

(** [map(f, l)] consumed to the end; the first exception is raised. *)
Fixpoint map_result {A B : Type} (f : A -> result B) (l : list A) : result (list B) :=
  match l with
  | [] => Ok []
  | a :: l' =>
      let! b := f a in
      let! bs := map_result f l' in
      Ok (b :: bs)
  end.

End Py.

(** ** Regular expressions: the fragment used by [prep_group]

    A backtracking matcher in continuation-passing style; alternatives and
    greedy operators are tried in the order of Python's [re]. *)

Module Re.

Inductive regex : Type :=
| Cls (p : ascii -> bool)            (* a character class *)
| Lit (s : string)                   (* a literal *)
| Cat (r1 r2 : regex)
| Alt (r1 r2 : regex)                (* r1|r2 *)
| Opt (r : regex)                    (* r?, greedy *)
| Plus (p : ascii -> bool)           (* class+, greedy *)
| Grp (n : nat) (r : regex).         (* capture group number n *)

Definition captures := list (nat * string).

Fixpoint strip_prefix (p s : list ascii) : option (list ascii) :=
  match p, s with
  | [], _ => Some s
  | a :: p', b :: s' => if Py.eqb_ascii a b then strip_prefix p' s' else None
  | _ :: _, [] => None
  end.

Section matcher.
Context {R : Type}.

(** class*, longest first *)
Fixpoint star (p : ascii -> bool) (s : list ascii)
    (k : list ascii -> option R) : option R :=
  match s with
  | c :: s' =>
      if p c then
        match star p s' k with
        | Some x => Some x
        | None => k s
        end
      else k s
  | [] => k []
  end.

Fixpoint run (r : regex) (s : list ascii) (cs : captures)
    (k : list ascii -> captures -> option R) : option R :=
  match r with
  | Cls p =>
      match s with
      | c :: s' => if p c then k s' cs else None
      | [] => None
      end
  | Lit l =>
      match strip_prefix (list_ascii_of_string l) s with
      | Some s' => k s' cs
      | None => None
      end
  | Cat r1 r2 => run r1 s cs (fun s' cs' => run r2 s' cs' k)
  | Alt r1 r2 =>
      match run r1 s cs k with
      | Some x => Some x
      | None => run r2 s cs k
      end
  | Opt r' =>
      match run r' s cs k with
      | Some x => Some x
      | None => k s cs
      end
  | Plus p =>
      match s with
      | c :: s' => if p c then star p s' (fun s'' => k s'' cs) else None
      | [] => None
      end
  | Grp n r' =>
      run r' s cs (fun s' cs' =>
        k s' ((n, string_of_list_ascii (take (length s - length s') s)) :: cs'))
  end.
End matcher.

Definition group (cs : captures) (n : nat) : string :=
  match find (fun c => Nat.eqb (fst c) n) cs with
  | Some c => snd c
  | None => ""
  end.

(** [re.match(r, s)]: the pattern has to match at the start of [s]; what
    follows the match is not looked at. *)
Definition match_ (r : regex) (s : string) : option captures :=
  run r (list_ascii_of_string s) [] (fun _ cs => Some cs).


(** The language of a regular expression, with the captures that a match
    of [w] adds (the latest first). *)
Fixpoint sem (r : regex) (w : list ascii) (new : captures) : Prop :=
  match r with
  | Cls p => exists c, w = [c] /\ p c = true /\ new = []
  | Lit l => w = list_ascii_of_string l /\ new = []
  | Cat r1 r2 =>
      exists w1 w2 n1 n2,
        w = w1 ++ w2 /\ new = n2 ++ n1 /\ sem r1 w1 n1 /\ sem r2 w2 n2
  | Alt r1 r2 => sem r1 w new \/ sem r2 w new
  | Opt r' => sem r' w new \/ (w = [] /\ new = [])
  | Plus p => w <> [] /\ forallb p w = true /\ new = []
  | Grp n r' =>
      exists new', new = (n, string_of_list_ascii w) :: new' /\ sem r' w new'
  end.


End Re.

(** ** Schema records (fields read by this file) *)

Module Subject.
Record t := { name : string; short : string }.
End Subject.

Module Teacher.
Record t := { short : string }.
End Teacher.

Module Classroom.
Record t := { short : string }.
End Classroom.

(** A period record is only passed on. *)
Module Period.
Record t := { id : string }.
End Period.

(** ** Name resolution *)

(** [canonicalize(x)]: [x.replace("_", " ").lower()] *)
Definition canonicalize (x : string) : string :=
  Py.lower (Py.replace "_" " " x).

Section resolvers.
(** [get_overrides(name)]: the override table of a category, read from
    [versions/v2/overrides/<name>.json] ([{}] when there is no file). *)
Variable get_overrides : string -> gmap string string.
(** [overrides.parse()]: the table of teacher names. *)
Variable overrides_parse : gmap string string.

Definition prep_subject (x : option Subject.t) : string :=
  match x with
  | None => ""
  | Some x =>
      let ovr := get_overrides "subject" in
      match ovr !! Subject.name x with
      | Some v => v
      | None => canonicalize (Subject.name x)
      end
  end.

Definition prep_subject_short (x : option Subject.t) : string :=
  match x with
  | None => ""
  | Some x =>
      let ovr := get_overrides "subject_short" in
      match ovr !! Subject.short x with
      | Some v => v
      | None => canonicalize (Subject.short x)
      end
  end.

(** [([1-4])([a-zA-Z]|DSD)[1-4]?kl[1-4]?-(\d+)] *)
Definition group_pattern : Re.regex :=
  let one_to_four := Re.Cls (Py.in_range "1" "4") in
  let letter := Re.Cls (fun c => Py.is_lower c || Py.is_upper c) in
  Re.Cat (Re.Grp 1 one_to_four)
 (Re.Cat (Re.Grp 2 (Re.Alt letter (Re.Lit "DSD")))
 (Re.Cat (Re.Opt one_to_four)
 (Re.Cat (Re.Lit "kl")
 (Re.Cat (Re.Opt one_to_four)
 (Re.Cat (Re.Lit "-")
         (Re.Grp 3 (Re.Plus Py.is_digit))))))).

(** The dict of language names in [prep_group]. *)
Definition language_names : gmap string string :=
  list_to_map
    [ ("a", "angielski"); ("n", "niemiecki"); ("f", "francuski");
      ("h", "hiszpański"); ("r", "rosyjski"); ("w", "włoski") ].

Definition prep_group (x : string) : result string :=
  if negb (Py.truthy x) then Ok ""
  else
    let ovr := get_overrides "group" in
    match ovr !! x with
    | Some v => Ok v
    | None =>
        match Re.match_ group_pattern x with
        | Some reg =>
            let tok := Re.group reg 2 in
            let! cnt := Py.int (Re.group reg 1) in
            let! idx := Py.int (Re.group reg 3) in
            if String.eqb (Py.lower tok) "dsd" then
              Ok ("DSD " +:+ Py.str_of_int idx)
            else
              let! name := Py.dict_get language_names (Py.lower tok) in
              let type_ := if Py.isupper tok then "duży" else "mały" in
              Ok ("język " +:+ name +:+ " " +:+ type_ +:+ " " +:+ Py.str_of_int idx)
        | None => Ok (canonicalize x)
        end
    end.

(** The informational log line of [prep_teacher] is not recorded. *)
Definition prep_teacher (x : option Teacher.t) : string :=
  match x with
  | None => ""
  | Some x =>
      let ovr := overrides_parse in
      let key := Py.lower (Teacher.short x) in
      match ovr !! key with
      | Some v => v
      | None => Teacher.short x
      end
  end.

Definition prep_classroom (x : option Classroom.t) : string :=
  match x with
  | None => ""
  | Some x =>
      let ovr := get_overrides "classroom" in
      match ovr !! Classroom.short x with
      | Some v => v
      | None => Classroom.short x
      end
  end.
End resolvers.


(** ** Dates and times of day ([datetime.date], [datetime.time]) *)

Module Date.

Record t := { year : Z; month : Z; day : Z }.

Definition is_leap (y : Z) : bool :=
  ((y mod 4 =? 0) && (negb (y mod 100 =? 0) || (y mod 400 =? 0)))%Z.

Definition days_in_month (y m : Z) : Z :=
  if (m =? 2)%Z then (if is_leap y then 29 else 28)%Z
  else if ((m =? 4) || (m =? 6) || (m =? 9) || (m =? 11))%Z then 30%Z
  else 31%Z.

Definition days_before_year (y : Z) : Z :=
  let y := (y - 1)%Z in
  (y * 365 + y / 4 - y / 100 + y / 400)%Z.

Definition days_before_month (y m : Z) : Z :=
  (nth (Z.to_nat m) [0; 0; 31; 59; 90; 120; 151; 181; 212; 243; 273; 304; 334] 0
   + (if (2 <? m) && is_leap y then 1 else 0))%Z.

(** [d.toordinal()] *)
Definition toordinal (d : t) : Z :=
  (days_before_year (year d) + days_before_month (year d) (month d) + day d)%Z.

(** [date(year, month, day)] *)
Definition make (y m d : Z) : result t :=
  if ((1 <=? y) && (y <=? 9999) && (1 <=? m) && (m <=? 12)
      && (1 <=? d) && (d <=? days_in_month y m))%Z
  then Ok {| year := y; month := m; day := d |}
  else Raise ValueError.

(** [date] applied to the unpacked list of its arguments *)
Definition of_args (args : list Z) : result t :=
  match args with
  | [y; m; d] => make y m d
  | _ => Raise TypeError
  end.

(** [(a - b).days] *)
Definition days_between (a b : t) : Z := (toordinal a - toordinal b)%Z.

End Date.

Module Time.

(** A time of day, in seconds since midnight. *)
Definition t := Z.

(** [time(h, m)] *)
Definition make (h m : Z) : t := (h * 3600 + m * 60)%Z.

Definition two_digits (a b : ascii) : result Z :=
  if Py.is_digit a && Py.is_digit b
  then Ok (10 * Py.digit_val a + Py.digit_val b)%Z
  else Raise ValueError.

Definition checked (h m s : Z) : result t :=
  if ((h <? 24) && (m <? 60) && (s <? 60))%Z
  then Ok (h * 3600 + m * 60 + s)%Z
  else Raise ValueError.

(** [time.fromisoformat(s)] for the forms [HH], [HH:MM] and [HH:MM:SS];
    the forms with a fraction of a second or a UTC offset are not covered
    and raise here. *)
Definition fromisoformat (s : string) : result t :=
  match list_ascii_of_string s with
  | [h1; h2] =>
      let! h := two_digits h1 h2 in checked h 0 0
  | [h1; h2; ":"%char; m1; m2] =>
      let! h := two_digits h1 h2 in
      let! m := two_digits m1 m2 in
      checked h m 0
  | [h1; h2; ":"%char; m1; m2; ":"%char; s1; s2] =>
      let! h := two_digits h1 h2 in
      let! m := two_digits m1 m2 in
      let! s := two_digits s1 s2 in
      checked h m s
  | _ => Raise ValueError
  end.

End Time.

(** ** The raw items and the normalised entries *)

(** A raw item is a JSON object wrapped in [defaultdict(lambda: None, obj)]:
    a key that is absent reads as [None]. *)
Module Obj.
Record t := {
  date : option string;
  teacherids : option (list string);
  classroomids : option (list string);
  subjectid : option string;
  starttime : option string;
  type : option string;
  groupnames : option (list string);
  colors : option (list string);
  durationperiods : option Z;
  removed : option bool;
  name : option string
}.

Definition with_durationperiods (d : option Z) (obj : t) : t :=
  {| date := date obj; teacherids := teacherids obj;
     classroomids := classroomids obj; subjectid := subjectid obj;
     starttime := starttime obj; type := type obj;
     groupnames := groupnames obj; colors := colors obj;
     durationperiods := d; removed := removed obj; name := name obj |}.
End Obj.

Module TTentryRaw.
Record t := {
  subject : option Subject.t;
  period : Period.t;
  teacher : option Teacher.t;
  classroom : option Classroom.t
}.
End TTentryRaw.

(** The [date] of an entry is kept as the date itself; the source stores
    its rendering [strftime("%Y-%m-%d")]. *)
Module TTentry.
Record t := {
  subject : string;
  subject_short : string;
  teacher : string;
  classroom : string;
  color : string;
  time_index : Z;
  duration : Z;
  group_raw : string;
  group : string;
  date : Date.t;
  day_index : Z;
  removed : bool;
  raw : option TTentryRaw.t
}.

Definition with_group (g : string) (x : t) : t :=
  {| subject := subject x; subject_short := subject_short x;
     teacher := teacher x; classroom := classroom x; color := color x;
     time_index := time_index x; duration := duration x;
     group_raw := group_raw x; group := g; date := date x;
     day_index := day_index x; removed := removed x; raw := raw x |}.
End TTentry.

Module TTabsent.
Record t := {
  date : Date.t;
  day_index : Z;
  duration : Z;
  group_raw : string;
  group : string;
  name : option string;
  time_index : Z
}.
End TTabsent.

(** The object returned by [get_data()], as far as this file reads it:
    the id-to-record maps [table.teachers], [table.classrooms],
    [table.subjects], [table.periods], and the dict
    [table.periods.starttime] from a start time to the id of its period. *)
Module Table.
Record t := {
  teachers : string -> result (option Teacher.t);
  classrooms : string -> result (option Classroom.t);
  subjects : option string -> result (option Subject.t);
  periods : string -> result Period.t;
  periods_starttime : gmap string string
}.
End Table.

(** ** Lists and dicts of the grid assembly *)

Section sequences.
Context {A : Type}.
Variable key : A -> Z.

(** [l.sort(key = key)]: a stable sort, written as an insertion sort. *)
Fixpoint insert_by (x : A) (l : list A) : list A :=
  match l with
  | [] => [x]
  | y :: l' => if (key x <=? key y)%Z then x :: y :: l' else y :: insert_by x l'
  end.

Fixpoint sort_by (l : list A) : list A :=
  match l with
  | [] => []
  | x :: l' => insert_by x (sort_by l')
  end.

(** [itertools.groupby(l, key)] with every group made a list: the runs
    of consecutive elements that have the same key. *)
Fixpoint groupby (l : list A) : list (Z * list A) :=
  match l with
  | [] => []
  | x :: l' =>
      match groupby l' with
      | (k, g) :: rest =>
          if (key x =? k)%Z then (k, x :: g) :: rest
          else (key x, [x]) :: (k, g) :: rest
      | [] => [(key x, [x])]
      end
  end.

(** A dict from integers to lists, in insertion order.
    [dict_new k d] is [d[k] = []]. *)
Fixpoint dict_new (k : Z) (d : list (Z * list A)) : list (Z * list A) :=
  match d with
  | [] => [(k, [])]
  | (k', v) :: d' =>
      if (k =? k')%Z then (k', []) :: d' else (k', v) :: dict_new k d'
  end.

(** [d[k].append(x)] *)
Fixpoint dict_append (k : Z) (x : A) (d : list (Z * list A))
    : result (list (Z * list A)) :=
  match d with
  | [] => Raise KeyError
  | (k', v) :: d' =>
      if (k =? k')%Z then Ok ((k', v ++ [x]) :: d')
      else
        let! d'' := dict_append k x d' in
        Ok ((k', v) :: d'')
  end.
End sequences.

(** A [for] loop whose body may raise. *)
Fixpoint for_each {A S : Type} (l : list A) (body : A -> S -> result S) (s : S)
    : result S :=
  match l with
  | [] => Ok s
  | a :: l' =>
      let! s' := body a s in
      for_each l' body s'
  end.

(** ** [get_timetable_data] *)

Definition grid := list (list (list TTentry.t)).

Record Output := { ttdata : grid; events : list TTabsent.t }.

(** What the body of the loop over the raw items does with one item. *)
Inductive outcome : Type :=
| Lesson (x : TTentry.t)          (* appended to [data] *)
| Absence (x : TTabsent.t)        (* appended to [events] *)
| Unusual (starttime : string).   (* logged as an error, then [continue] *)

(** The lists that the loop over the raw items fills; [errors] are the
    start times given to [logging.error]. *)
Record lists := {
  data : list TTentry.t;
  events_ : list TTabsent.t;
  errors : list string
}.

Section normaliser.
Variable get_overrides : string -> gmap string string.
Variable overrides_parse : gmap string string.
Variable table : Table.t.
(** [utils.date.monday_before(_date)] *)
Variable monday_before : Date.t.
Variable raw : bool.

(** The start time under which the item is looked up:
    [None] stands for [continue]. *)
Definition clamp_starttime (start : Time.t) (obj_starttime : string)
    : option string :=
  if (start <? Time.make 7 10)%Z then Some "07:10"
  else if (Time.make 16 30 <? start)%Z then Some "16:30"
  else if negb (Py.dict_in obj_starttime (Table.periods_starttime table)) then None
  else Some obj_starttime.

Definition parse_date (obj_date : option string) : result Date.t :=
  match obj_date with
  | None => Raise AttributeError
  | Some s =>
      let! args := Py.map_result Py.int (Py.split "-" s) in
      Date.of_args args
  end.

Definition loop_body (obj : Obj.t) : result outcome :=
  let! date_ := parse_date (Obj.date obj) in
  let! teacherid := Py.getitem (Py.or_list (Obj.teacherids obj) ["0"]) 0 in
  let! teacher := Table.teachers table teacherid in
  let! classroomid := Py.getitem (Py.or_list (Obj.classroomids obj) ["0"]) 0 in
  let! classroom := Table.classrooms table classroomid in
  let! subject := Table.subjects table (Obj.subjectid obj) in
  let! obj_starttime :=
    match Obj.starttime obj with
    | Some s => Ok s
    | None => Raise TypeError
    end in
  let! start := Time.fromisoformat obj_starttime in
  match clamp_starttime start obj_starttime with
  | None => Ok (Unusual obj_starttime)
  | Some starttime =>
      let! period_id := Py.dict_get (Table.periods_starttime table) starttime in
      let! period := Table.periods table period_id in
      let type_ := Obj.type obj in
      let! group_raw := Py.getitem (Py.or_list (Obj.groupnames obj) [""]) 0 in
      if decide (type_ = Some "card") then
        let subject' := prep_subject get_overrides subject in
        let subject_short' := prep_subject_short get_overrides subject in
        let teacher' := prep_teacher overrides_parse teacher in
        let classroom' := prep_classroom get_overrides classroom in
        let! color := Py.getitem (Py.or_list (Obj.colors obj) ["#d0ffd0"]) 0 in
        let! id := Py.dict_get (Table.periods_starttime table) obj_starttime in
        let! time_index := Py.int id in
        let duration := Py.or_int (Obj.durationperiods obj) 1 in
        let! group := prep_group get_overrides group_raw in
        Ok (Lesson {|
          TTentry.subject := subject';
          TTentry.subject_short := subject_short';
          TTentry.teacher := teacher';
          TTentry.classroom := classroom';
          TTentry.color := color;
          TTentry.time_index := time_index;
          TTentry.duration := duration;
          TTentry.group_raw := group_raw;
          TTentry.group := group;
          TTentry.date := date_;
          TTentry.day_index := Date.days_between date_ monday_before;
          TTentry.removed := Py.or_false (Obj.removed obj);
          TTentry.raw :=
            if raw then
              Some {| TTentryRaw.subject := subject;
                      TTentryRaw.period := period;
                      TTentryRaw.teacher := teacher;
                      TTentryRaw.classroom := classroom |}
            else None
        |})
      else
        let duration := Py.or_int (Obj.durationperiods obj) 1 in
        let! id := Py.dict_get (Table.periods_starttime table) starttime in
        let! time_index := Py.int id in
        let duration :=
          if (9 <? duration + time_index)%Z then (9 - time_index)%Z else duration in
        let! group := prep_group get_overrides group_raw in
        Ok (Absence {|
          TTabsent.date := date_;
          TTabsent.day_index := Date.days_between date_ monday_before;
          TTabsent.duration := duration;
          TTabsent.group_raw := group_raw;
          TTabsent.group := group;
          TTabsent.name := Obj.name obj;
          TTabsent.time_index := time_index
        |})
  end.

Definition record (o : outcome) (st : lists) : lists :=
  match o with
  | Lesson x =>
      {| data := data st ++ [x]; events_ := events_ st; errors := errors st |}
  | Absence x =>
      {| data := data st; events_ := events_ st ++ [x]; errors := errors st |}
  | Unusual s =>
      {| data := data st; events_ := events_ st; errors := errors st ++ [s] |}
  end.

(** [for obj in resp: ...] *)
Definition read_items (resp : list Obj.t) : result lists :=
  for_each resp
    (fun obj st => let! o := loop_body obj in Ok (record o st))
    {| data := []; events_ := []; errors := [] |}.

(** [if x["subject"] == "religia": x["group"] = "religia 1"] *)
Definition bogus_group (x : TTentry.t) : TTentry.t :=
  if String.eqb (TTentry.subject x) "religia"
  then TTentry.with_group "religia 1" x
  else x.

(** [output = [[[]]*11 for _ in range(5)]] *)
Definition empty_grid : grid := replicate 5 (replicate 11 []).

(** [days = {x["day_index"]:[] for x in data}], then the appends. *)
Definition make_days (data : list TTentry.t)
    : result (list (Z * list TTentry.t)) :=
  let days := foldl (fun d x => dict_new (TTentry.day_index x) d) [] data in
  for_each data (fun x d => dict_append (TTentry.day_index x) x d) days.

(** [output[idx][x] = list(y)] *)
Definition assign (idx x : Z) (y : list TTentry.t) (output : grid)
    : result grid :=
  let! row := Py.getitem output idx in
  let! row' := Py.setitem row x y in
  Py.setitem output idx row'.

Definition fill_grid (days : list (Z * list TTentry.t)) : result grid :=
  for_each days
    (fun d output =>
       for_each (groupby TTentry.time_index (snd d))
         (fun g output => assign (fst d) (fst g) (snd g) output)
         output)
    empty_grid.

(** Everything after the loop over the raw items. *)
Definition assemble (data : list TTentry.t) : result grid :=
  let data := sort_by TTentry.day_index data in
  let data := map bogus_group data in
  let! days := make_days data in
  fill_grid days.

Definition get_timetable_data (resp : list Obj.t) : result Output :=
  let! st := read_items resp in
  let! output := assemble (data st) in
  Ok {| ttdata := output; events := events_ st |}.

(** The start times given to [logging.error] by a call whose loop over
    the raw items runs to its end. *)
Definition logged_errors (resp : list Obj.t) : result (list string) :=
  let! st := read_items resp in
  Ok (errors st).
End normaliser.

(** ** The cache rule of [get_timetable_data_raw] *)

(** A positional argument of the cached call. *)
Inductive arg : Type :=
| ADatetime (t : Z)     (* a [datetime], as a point on the time line *)
| AStr (s : string).

(** [trule( *args, **kwargs)], with [now] the value of [datetime.now()].
    The result is a number of seconds; [1e18] is the integer [10^18]. *)
Definition trule (now : Z) (args : list arg) : result Z :=
  let! date := Py.getitem args 0 in
  match date with
  | ADatetime date =>
      if (now <? date)%Z then Ok (3600 * 6)%Z else Ok (10 ^ 18)%Z
  | AStr _ => Raise TypeError
  end.

(** ** Sample data *)

Module Sample.

Definition no_overrides : string -> gmap string string := fun _ => ∅.



Definition starttimes : gmap string string :=
  list_to_map
    [ ("07:10", "0"); ("08:00", "1"); ("08:55", "2"); ("09:50", "3");
      ("10:45", "4"); ("11:40", "5"); ("12:45", "6"); ("13:40", "7");
      ("14:35", "8"); ("15:30", "9"); ("16:30", "10") ].

Definition table : Table.t :=
  {| Table.teachers := fun id =>
       Ok (if String.eqb id "0" then None else Some {| Teacher.short := id |});
     Table.classrooms := fun id =>
       Ok (if String.eqb id "0" then None else Some {| Classroom.short := id |});
     Table.subjects := fun id =>
       Ok (match id with
           | Some s => Some {| Subject.name := s; Subject.short := s |}
           | None => None
           end);
     Table.periods := fun id => Ok {| Period.id := id |};
     Table.periods_starttime := starttimes |}.

(** Monday 4 March 2024. *)
Definition monday : Date.t := {| Date.year := 2024; Date.month := 3; Date.day := 4 |}.

Definition item (type date starttime subject : string) (duration : option Z) : Obj.t :=
  {| Obj.date := Some date;
     Obj.teacherids := Some ["KOW"];
     Obj.classroomids := Some ["12"];
     Obj.subjectid := Some subject;
     Obj.starttime := Some starttime;
     Obj.type := Some type;
     Obj.groupnames := None;
     Obj.colors := None;
     Obj.durationperiods := duration;
     Obj.removed := None;
     Obj.name := None |}.

Definition normalise (resp : list Obj.t) : result Output :=
  get_timetable_data no_overrides ∅ table monday false resp.

Definition date_of (day : Z) : Date.t :=
  {| Date.year := 2024; Date.month := 3; Date.day := day |}.

(** A three-period event on Wednesday at 14:35, and the entry made of it. *)
Definition long_event : Obj.t := item "event" "2024-03-06" "14:35" "wycieczka" (Some 3%Z).

Definition long_event_entry : TTabsent.t :=
  {| TTabsent.date := date_of 6;
     TTabsent.day_index := 2;
     TTabsent.duration := 1;
     TTabsent.group_raw := "";
     TTabsent.group := "";
     TTabsent.name := None;
     TTabsent.time_index := 8 |}.

(** The lesson entry of the sample item of subject [subject] on the day
    [day] of March 2024 in period [time_index]. *)
Definition lesson_entry (subject : string) (day time_index : Z) : TTentry.t :=
  {| TTentry.subject := subject;
     TTentry.subject_short := subject;
     TTentry.teacher := "KOW";
     TTentry.classroom := "12";
     TTentry.color := "#d0ffd0";
     TTentry.time_index := time_index;
     TTentry.duration := 1;
     TTentry.group_raw := "";
     TTentry.group := "";
     TTentry.date := date_of day;
     TTentry.day_index := Date.days_between (date_of day) monday;
     TTentry.removed := false;
     TTentry.raw := None |}.

(** A feed of two days: one lesson on Monday, two on Tuesday. *)
Definition two_days : list (Z * list Obj.t) :=
  [ (0%Z, [item "card" "2024-03-04" "08:00" "fizyka" None]);
    (1%Z, [item "card" "2024-03-05" "08:00" "matematyka" None;
           item "card" "2024-03-05" "08:00" "chemia" None]) ].

End Sample.


(** ** Notions used in the statements *)

Section views.
Variable get_overrides : string -> gmap string string.
Variable overrides_parse : gmap string string.
Variable table : Table.t.
Variable monday_before : Date.t.
Variable raw : bool.

Let body := loop_body get_overrides overrides_parse table monday_before raw.

(** The lesson entries and the exception entries that the items yield,
    in the order of the items. *)
Definition lessons (resp : list Obj.t) : list TTentry.t :=
  flat_map (fun obj => match body obj with Ok (Lesson x) => [x] | _ => [] end) resp.

Definition absences (resp : list Obj.t) : list TTabsent.t :=
  flat_map (fun obj => match body obj with Ok (Absence x) => [x] | _ => [] end) resp.

(** The day index of a raw item, when its date can be read. *)
Definition day_of (obj : Obj.t) : option Z :=
  match parse_date (Obj.date obj) with
  | Ok d => Some (Date.days_between d monday_before)
  | Raise _ => None
  end.

End views.

(** The items of the blocks, one block after the other. *)
Definition feed (blocks : list (Z * list Obj.t)) : list Obj.t :=
  concat (map snd blocks).

(** The grid of a call, if the call returns. *)
Definition grid_of (r : result Output) : option grid :=
  match r with
  | Ok out => Some (ttdata out)
  | Raise _ => None
  end.

(** The grid has 5 rows of 11 cells. *)
Definition shaped (g : grid) : Prop :=
  length g = 5%nat /\ Forall (fun row => length row = 11%nat) g.

(** Every entry lies in the cell that its own indices address. *)
Definition well_placed (g : grid) : Prop :=
  forall (d t : nat) (row : list (list TTentry.t)) (cell : list TTentry.t)
         (x : TTentry.t),
    g !! d = Some row -> row !! t = Some cell -> x ∈ cell ->
    Py.index 5 (TTentry.day_index x) = Ok d
    /\ Py.index 11 (TTentry.time_index x) = Ok t.

(** ** Notions used in the further properties *)

(** The item with its four lists of identifiers replaced. *)
Definition with_lists (ids : option (list string)) (obj : Obj.t) : Obj.t :=
  {| Obj.date := Obj.date obj; Obj.teacherids := ids;
     Obj.classroomids := ids; Obj.subjectid := Obj.subjectid obj;
     Obj.starttime := Obj.starttime obj; Obj.type := Obj.type obj;
     Obj.groupnames := ids; Obj.colors := ids;
     Obj.durationperiods := Obj.durationperiods obj;
     Obj.removed := Obj.removed obj; Obj.name := Obj.name obj |}.

(** More sample data. *)
Module Sample2.

(** An assembly on Tuesday at 08:00, and the entry made of it. *)
Definition assembly : Obj.t := Sample.item "event" "2024-03-05" "08:00" "apel" None.

Definition assembly_entry : TTabsent.t :=
  {| TTabsent.date := Sample.date_of 5;
     TTabsent.day_index := 1;
     TTabsent.duration := 1;
     TTabsent.group_raw := "";
     TTabsent.group := "";
     TTabsent.name := None;
     TTabsent.time_index := 1 |}.

(** The grid with one cell filled. *)
Definition one_cell (d t : nat) (cell : list TTentry.t) : grid :=
  <[d := <[t := cell]> (replicate 11 [])]> empty_grid.

(** A lesson of religion on Tuesday at 08:00, and its entry in the grid. *)
Definition religia : Obj.t := Sample.item "card" "2024-03-05" "08:00" "religia" None.

Definition religia_entry : TTentry.t :=
  TTentry.with_group "religia 1" (Sample.lesson_entry "religia" 5 1).

(** A lesson of physics on Tuesday at 08:00. *)
Definition fizyka : Obj.t := Sample.item "card" "2024-03-05" "08:00" "fizyka" None.


(** The grid of [Sample.two_days]. *)
Definition two_days_grid : grid :=
  <[1%nat := <[1%nat := [Sample.lesson_entry "matematyka" 5 1;
                         Sample.lesson_entry "chemia" 5 1]]> (replicate 11 [])]>
    (one_cell 0 1 [Sample.lesson_entry "fizyka" 4 1]).

End Sample2.

(** The entry lies in a cell of the grid. *)
Definition in_grid (x : TTentry.t) (g : grid) : Prop :=
  exists (d t : nat) (row : list (list TTentry.t)) (cell : list TTentry.t),
    g !! d = Some row /\ row !! t = Some cell /\ x ∈ cell.

(** Every entry of the grid has the property [P]. *)
Definition grid_all (P : TTentry.t -> Prop) (g : grid) : Prop :=
  forall x, in_grid x g -> P x.

(** The lesson can be stored: Python accepts both of its indices for a
    grid of 5 rows of 11 cells. *)
Definition addressable (x : TTentry.t) : Prop :=
  (-5 <= TTentry.day_index x < 5)%Z /\ (-11 <= TTentry.time_index x < 11)%Z.

(** The dict [d] after every element of [l] has been appended to the list
    of its key. *)
Definition dict_extend {A : Type} (key : A -> Z) (l : list A)
    (d : list (Z * list A)) : list (Z * list A) :=
  map (fun b => (fst b, snd b ++ filter (fun x => key x = fst b) l)) d.

(** The assignments [output[idx][x] = list(y)] that the two loops over
    [days] make, in order. *)
Definition writes (days : list (Z * list TTentry.t))
    : list (Z * Z * list TTentry.t) :=
  flat_map
    (fun d => map (fun r => (fst d, fst r, snd r))
                  (groupby TTentry.time_index (snd d)))
    days.

Definition write (w : Z * Z * list TTentry.t) (output : grid) : result grid :=
  assign (fst (fst w)) (snd (fst w)) (snd w) output.

(** Both indices of the assignment are accepted by a grid of 5 rows of
    11 cells. *)
Definition write_ok (w : Z * Z * list TTentry.t) : Prop :=
  (-5 <= fst (fst w) < 5)%Z /\ (-11 <= snd (fst w) < 11)%Z.


(** The cell [output[d][t]] of a grid, when it exists. *)
Definition cell_at (g : list (list (list TTentry.t))) (d t : nat)
    : option (list TTentry.t) :=
  match g !! d with
  | Some row => row !! t
  | None => None
  end.

(** Within every day, the lessons come by ascending period. *)
Definition periods_ascend (l : list TTentry.t) : Prop :=
  forall d : Z,
    StronglySorted (fun a b => (TTentry.time_index a <= TTentry.time_index b)%Z)
      (filter (fun x => TTentry.day_index x = d) l).

(** The lessons of the day [d] and period [t]. *)
Definition at_slot (d t : Z) (x : TTentry.t) : Prop :=
  TTentry.time_index x = t /\ TTentry.day_index x = d.

(** Both indices of the assignment count from the start of the axis. *)
Definition write_from_start (w : Z * Z * list TTentry.t) : Prop :=
  (0 <= fst (fst w))%Z /\ (0 <= snd (fst w))%Z.


(** * Properties *)

(** ** The error monad *)

Lemma bind_ok {A B : Type} (m : result A) (f : A -> result B) (b : B) :
  bind m f = Ok b -> exists a, m = Ok a /\ f a = Ok b.
Proof. destruct m as [a|e]; simpl; intros H; [eauto | discriminate]. Qed.

(** Peel the successive [let!] of a successful computation. *)
Ltac bind_inv H :=
  repeat
    match type of H with
    | bind _ _ = Ok _ =>
        let a := fresh "a" in
        let Ha := fresh "Ha" in
        apply bind_ok in H; destruct H as (a & Ha & H)
    end.

(** ** The matcher against the language of the expression *)

Lemma eqb_ascii_eq (a b : ascii) : Py.eqb_ascii a b = true <-> a = b.
Proof.
  unfold Py.eqb_ascii, Py.code. rewrite N.eqb_eq. split.
  - intros H. rewrite <- (ascii_N_embedding a), <- (ascii_N_embedding b).
    by rewrite H.
  - by intros ->.
Qed.

Lemma strip_prefix_Some (p s s' : list ascii) :
  Re.strip_prefix p s = Some s' <-> s = p ++ s'.
Proof.
  revert s. induction p as [|a p IH]; intros s; simpl.
  - split; [by intros [= ->] | by intros ->].
  - destruct s as [|b s]; [split; discriminate|].
    destruct (Py.eqb_ascii a b) eqn:E.
    + apply eqb_ascii_eq in E as ->. rewrite IH. split; [by intros -> | by intros [= ->]].
    + split; [discriminate|]. intros [= -> ->].
      assert (Py.eqb_ascii a a = true) by by apply eqb_ascii_eq.
      congruence.
Qed.

Lemma take_app_captured {X : Type} (w s' : list X) :
  take (length (w ++ s') - length s') (w ++ s') = w.
Proof.
  rewrite length_app. replace (length w + length s' - length s') with (length w) by lia.
  by rewrite take_app_length.
Qed.

Lemma star_sound {R : Type} (p : ascii -> bool) (s : list ascii)
    (k : list ascii -> option R) (x : R) :
  Re.star p s k = Some x ->
  exists w s', s = w ++ s' /\ forallb p w = true /\ k s' = Some x.
Proof.
  induction s as [|c s IH]; simpl.
  - intros H. by exists [], [].
  - destruct (p c) eqn:Hc.
    + destruct (Re.star p s k) as [y|] eqn:E.
      * intros [= ->]. destruct (IH eq_refl) as (w & s' & -> & Hw & Hk).
        exists (c :: w), s'. simpl. by rewrite Hc, Hw.
      * intros H. by exists [], (c :: s).
    + intros H. by exists [], (c :: s).
Qed.


(** Soundness: a successful run has consumed a word of the language. *)
Lemma run_sound {R : Type} (r : Re.regex) :
  forall (s : list ascii) (cs : Re.captures)
         (k : list ascii -> Re.captures -> option R) (x : R),
    Re.run r s cs k = Some x ->
    exists w s' new, s = w ++ s' /\ Re.sem r w new /\ k s' (new ++ cs) = Some x.
Proof.
  induction r as [p|l|r1 IH1 r2 IH2|r1 IH1 r2 IH2|r IH|p|n r IH];
    intros s cs k x; simpl.
  - destruct s as [|c s]; [discriminate|].
    destruct (p c) eqn:Hc; [|discriminate]. intros H.
    exists [c], s, []. eauto 10.
  - destruct (Re.strip_prefix _ s) as [s'|] eqn:E; [|discriminate].
    apply strip_prefix_Some in E as ->. intros H.
    exists (list_ascii_of_string l), s', []. eauto.
  - intros H. apply IH1 in H as (w1 & s1 & n1 & -> & Hs1 & H).
    apply IH2 in H as (w2 & s2 & n2 & -> & Hs2 & H).
    exists (w1 ++ w2), s2, (n2 ++ n1). rewrite <- !app_assoc. eauto 10.
  - destruct (Re.run r1 s cs k) as [y|] eqn:E.
    + intros [= ->]. apply IH1 in E as (w & s' & new & ? & ? & ?). eauto 10.
    + intros H. apply IH2 in H as (w & s' & new & ? & ? & ?). eauto 10.
  - destruct (Re.run r s cs k) as [y|] eqn:E.
    + intros [= ->]. apply IH in E as (w & s' & new & ? & ? & ?). eauto 10.
    + intros H. exists [], s, []. eauto 10.
  - destruct s as [|c s]; [discriminate|].
    destruct (p c) eqn:Hc; [|discriminate]. intros H.
    apply star_sound in H as (w & s' & -> & Hw & H).
    exists (c :: w), s', []. simpl. rewrite Hc, Hw. eauto 10.
  - intros H. apply IH in H as (w & s' & new & -> & Hs & H).
    rewrite take_app_captured in H. exists w, s', ((n, string_of_list_ascii w) :: new).
    eauto 10.
Qed.



Lemma match_Some_sem (r : Re.regex) (s : string) (reg : Re.captures) :
  Re.match_ r s = Some reg ->
  exists w rest, list_ascii_of_string s = w ++ rest /\ Re.sem r w reg.
Proof.
  unfold Re.match_. intros H.
  apply run_sound in H as (w & s' & new & ? & ? & [= <-]).
  rewrite app_nil_r. eauto.
Qed.

(** ** [int] on a string of digits *)

Lemma digit_not_space (c : ascii) : Py.is_digit c = true -> Py.is_space c = false.
Proof.
  unfold Py.is_digit, Py.in_range, Py.is_space. generalize (Py.code c). intros n.
  change (Py.code "0") with 48%N. change (Py.code "9") with 57%N.
  rewrite andb_true_iff, !N.leb_le. intros [H1 H2].
  apply orb_false_iff. split; apply andb_false_iff.
  - right. apply N.leb_gt. lia.
  - right. apply N.leb_gt. lia.
Qed.

Lemma lstrip_digits (l : list ascii) :
  forallb Py.is_digit l = true -> Py.lstrip l = l.
Proof.
  destruct l as [|c l]; simpl; [done|].
  intros [Hc _]%andb_true_iff. by rewrite (digit_not_space c Hc).
Qed.

Lemma forallb_rev {X : Type} (p : X -> bool) (l : list X) :
  forallb p (rev l) = forallb p l.
Proof.
  induction l as [|a l IH]; simpl; [done|].
  rewrite forallb_app, IH. simpl. by rewrite andb_true_r, andb_comm.
Qed.

Lemma strip_digits (l : list ascii) :
  forallb Py.is_digit l = true -> Py.strip l = l.
Proof.
  intros H. unfold Py.strip. rewrite (lstrip_digits l H).
  rewrite lstrip_digits by by rewrite forallb_rev.
  apply rev_involutive.
Qed.

Lemma int_signed_digit (c : ascii) (l : list ascii) :
  Py.is_digit c = true ->
  Py.int_signed (c :: l) = Py.int_digits 0 false (c :: l).
Proof.
  destruct c as [[] [] [] [] [] [] [] []]; vm_compute; congruence.
Qed.

Lemma int_digits_ok (l : list ascii) :
  forallb Py.is_digit l = true ->
  forall (acc : Z) (b : bool),
    l <> [] \/ b = true -> exists n, Py.int_digits acc b l = Ok n.
Proof.
  induction l as [|c l IH]; simpl.
  - intros _ acc b [H| ->]; [done|]. eauto.
  - intros [Hc Hl]%andb_true_iff acc b _. rewrite Hc. apply IH; auto.
Qed.

Lemma count_all_digits (l : list ascii) :
  forallb Py.is_digit l = true -> Py.count_digits l = N.of_nat (length l).
Proof.
  induction l as [|c l IH]; simpl; [done|].
  intros [-> Hl]%andb_true_iff. rewrite IH by done. lia.
Qed.

Lemma int_too_long (l : list ascii) :
  forallb Py.is_digit l = true ->
  (Py.int_max_str_digits < N.of_nat (length l))%N ->
  Py.int (string_of_list_ascii l) = Raise ValueError.
Proof.
  intros Hl Hlong. unfold Py.int.
  rewrite list_ascii_of_string_of_list_ascii, (strip_digits l Hl).
  rewrite (count_all_digits l Hl). cbv zeta.
  by rewrite (proj2 (N.ltb_lt _ _) Hlong).
Qed.

Lemma int_of_digits (l : list ascii) :
  l <> [] -> forallb Py.is_digit l = true ->
  (N.of_nat (length l) <= Py.int_max_str_digits)%N ->
  exists n, Py.int (string_of_list_ascii l) = Ok n.
Proof.
  intros Hne Hl Hshort. unfold Py.int.
  rewrite list_ascii_of_string_of_list_ascii, (strip_digits l Hl).
  rewrite (count_all_digits l Hl). cbv zeta.
  rewrite (proj2 (N.ltb_ge _ _) Hshort).
  destruct l as [|c l]; [done|].
  rewrite int_signed_digit by (simpl in Hl; by apply andb_true_iff in Hl as [? _]).
  apply int_digits_ok; auto.
Qed.

Lemma one_to_four_digit (c : ascii) :
  Py.in_range "1" "4" c = true -> Py.is_digit c = true.
Proof.
  unfold Py.is_digit, Py.in_range. generalize (Py.code c). intros n.
  change (Py.code "0") with 48%N. change (Py.code "9") with 57%N.
  change (Py.code "1") with 49%N. change (Py.code "4") with 52%N.
  rewrite !andb_true_iff, !N.leb_le. lia.
Qed.

(** ** The captures of the group pattern *)

Lemma group_pattern_captures (w : list ascii) (reg : Re.captures) :
  Re.sem group_pattern w reg ->
  exists (c : ascii) (tok : list ascii) (ds : list ascii),
    reg = [ (3, string_of_list_ascii ds); (2, string_of_list_ascii tok);
            (1, string_of_list_ascii [c]) ]%nat
    /\ Py.in_range "1" "4" c = true
    /\ (tok = list_ascii_of_string "DSD"
        \/ exists a, tok = [a] /\ (Py.is_lower a || Py.is_upper a) = true)
    /\ ds <> [] /\ forallb Py.is_digit ds = true.
Proof.
  unfold group_pattern. cbn [Re.sem].
  intros (w1 & w2 & n1 & n2 & -> & -> & (g1 & -> & c & -> & Hc & ->) & H).
  destruct H as (w3 & w4 & n3 & n4 & -> & -> & (g2 & -> & Htok) & H).
  destruct H as (w5 & w6 & n5 & n6 & -> & -> & Ho1 & H).
  destruct H as (w7 & w8 & n7 & n8 & -> & -> & [_ ->] & H).
  destruct H as (w9 & w10 & n9 & n10 & -> & -> & Ho2 & H).
  destruct H as (w11 & w12 & n11 & n12 & -> & -> & [_ ->] & H).
  destruct H as (g3 & -> & Hne & Hds & ->).
  assert (n5 = []) as -> by (destruct Ho1 as [(? & _ & _ & ->)|[_ ->]]; done).
  assert (n9 = []) as -> by (destruct Ho2 as [(? & _ & _ & ->)|[_ ->]]; done).
  exists c, w3, w12. simpl. split_and!; try done.
  - destruct Htok as [(a & -> & _ & ->)|[_ ->]]; done.
  - destruct Htok as [(a & -> & Ha & _)|[-> _]]; [right; eauto | by left].
Qed.

(** * The claims *)

(** C5. With no override for the code, [prep_group] decodes ["2a1kl-3"] to
    ["język angielski mały 3"], ["2A1kl-3"] (capital token) to
    ["język angielski duży 3"] and ["3DSDkl-1"] to ["DSD 1"], and the
    unstructured ["grupa_x"] falls back to ["grupa x"]. *)
Theorem prep_group_decodes (get_overrides : string -> gmap string string) :
  get_overrides "group" !! "2a1kl-3" = None ->
  get_overrides "group" !! "2A1kl-3" = None ->
  get_overrides "group" !! "3DSDkl-1" = None ->
  get_overrides "group" !! "grupa_x" = None ->
  prep_group get_overrides "2a1kl-3" = Ok "język angielski mały 3"
  /\ prep_group get_overrides "2A1kl-3" = Ok "język angielski duży 3"
  /\ prep_group get_overrides "3DSDkl-1" = Ok "DSD 1"
  /\ prep_group get_overrides "grupa_x" = Ok "grupa x".
Proof.
  intros H1 H2 H3 H4. unfold prep_group. cbn [Py.truthy negb].
  rewrite H1, H2, H3, H4. vm_compute. done.
Qed.

Lemma prep_group_decodes_witness :
  prep_group Sample.no_overrides "2a1kl-3" = Ok "język angielski mały 3"
  /\ prep_group Sample.no_overrides "2A1kl-3" = Ok "język angielski duży 3"
  /\ prep_group Sample.no_overrides "3DSDkl-1" = Ok "DSD 1"
  /\ prep_group Sample.no_overrides "grupa_x" = Ok "grupa x".
Proof. apply (prep_group_decodes Sample.no_overrides); reflexivity. Defined.




Lemma length_string_of_list (l : list ascii) :
  String.length (string_of_list_ascii l) = length l.
Proof. induction l as [|c l IH]; simpl; [done | by rewrite IH]. Qed.







(** C9. [trule] gives 6 hours (in seconds) when the requested date is
    strictly after now, and [1e18] seconds when it is not. *)
Theorem trule_adaptive (now date : Z) (rest : list arg) :
  ((now < date)%Z -> trule now (ADatetime date :: rest) = Ok (6 * 3600)%Z)
  /\ ((date <= now)%Z -> trule now (ADatetime date :: rest) = Ok (10 ^ 18)%Z).
Proof.
  unfold trule, Py.getitem, Py.index. simpl. split; intros H.
  - by apply Z.ltb_lt in H as ->.
  - by apply Z.ltb_ge in H as ->.
Qed.

Lemma trule_adaptive_witness :
  trule 1000 [ADatetime 2000; AStr "3a"] = Ok 21600%Z
  /\ trule 1000 [ADatetime 1000; AStr "3a"] = Ok (10 ^ 18)%Z
  /\ trule 1000 [ADatetime 5; AStr "3a"] = Ok (10 ^ 18)%Z.
Proof.
  split_and!.
  - apply (trule_adaptive 1000 2000 [AStr "3a"]). lia.
  - apply (trule_adaptive 1000 1000 [AStr "3a"]). lia.
  - apply (trule_adaptive 1000 5 [AStr "3a"]). lia.
Defined.

(** ** Loops *)

Lemma for_each_inv {A S : Type} (I : S -> Prop) (l : list A)
    (body : A -> S -> result S) :
  (forall a s s', a ∈ l -> I s -> body a s = Ok s' -> I s') ->
  forall s s', I s -> for_each l body s = Ok s' -> I s'.
Proof.
  induction l as [|a l IH]; simpl; intros Hbody s s' Hs H.
  - by injection H as <-.
  - apply bind_ok in H as (s1 & H1 & H).
    eapply IH; [..|exact H].
    + intros b t t' Hb. apply Hbody. by right.
    + eapply Hbody; [by left|exact Hs|exact H1].
Qed.

Section read_items_facts.
Variable get_overrides : string -> gmap string string.
Variable overrides_parse : gmap string string.
Variable table : Table.t.
Variable monday_before : Date.t.
Variable raw : bool.

Let body := loop_body get_overrides overrides_parse table monday_before raw.
Let step := fun obj st => let! o := body obj in Ok (record o st).

Lemma for_each_step (resp : list Obj.t) :
  forall st st',
    for_each resp step st = Ok st' ->
    data st' = data st ++ lessons get_overrides overrides_parse table monday_before raw resp
    /\ events_ st' = events_ st ++ absences get_overrides overrides_parse table monday_before raw resp.
Proof.
  induction resp as [|obj resp IH]; simpl; intros st st' H.
  - injection H as <-. by rewrite !app_nil_r.
  - apply bind_ok in H as (s1 & H1 & H). apply IH in H as [-> ->].
    unfold step in H1. apply bind_ok in H1 as (o & Ho & [= <-]).
    fold body. rewrite Ho. destruct o; simpl; by rewrite <- ?app_assoc, ?app_nil_r.
Qed.


Lemma read_items_Ok (resp : list Obj.t) (st : lists) :
  read_items get_overrides overrides_parse table monday_before raw resp = Ok st ->
  data st = lessons get_overrides overrides_parse table monday_before raw resp
  /\ events_ st = absences get_overrides overrides_parse table monday_before raw resp.
Proof. intros H. by apply for_each_step in H as [-> ->]. Qed.


Lemma elem_of_absences (resp : list Obj.t) (x : TTabsent.t) :
  x ∈ absences get_overrides overrides_parse table monday_before raw resp ->
  exists obj, obj ∈ resp /\ body obj = Ok (Absence x).
Proof.
  unfold absences. fold body. intros H.
  apply list_elem_of_In, in_flat_map in H as (obj & Hobj & Hx).
  exists obj. split; [by apply list_elem_of_In|].
  destruct (body obj) as [[y|y|y]|e]; simpl in Hx; try done.
  destruct Hx as [->|[]]. done.
Qed.
End read_items_facts.

(** ** One item *)

Section loop_body_facts.
Variable get_overrides : string -> gmap string string.
Variable overrides_parse : gmap string string.
Variable table : Table.t.
Variable monday_before : Date.t.
Variable raw : bool.

Let body := loop_body get_overrides overrides_parse table monday_before raw.

(** The stored duration of an exception entry. *)
Lemma absence_duration (obj : Obj.t) (x : TTabsent.t) :
  body obj = Ok (Absence x) ->
  TTabsent.duration x =
    let d := Py.or_int (Obj.durationperiods obj) 1 in
    if (9 <? d + TTabsent.time_index x)%Z then (9 - TTabsent.time_index x)%Z else d.
Proof.
  unfold body, loop_body. intros H. bind_inv H.
  destruct (clamp_starttime _ _ _) as [starttime|]; [|discriminate].
  bind_inv H. destruct (decide _); bind_inv H; [discriminate|].
  by injection H as <-.
Qed.

(** The duration of a lesson entry is the raw one, or 1. *)
Lemma lesson_duration (obj : Obj.t) (x : TTentry.t) :
  body obj = Ok (Lesson x) ->
  TTentry.duration x = Py.or_int (Obj.durationperiods obj) 1.
Proof.
  unfold body, loop_body. intros H. bind_inv H.
  destruct (clamp_starttime _ _ _) as [starttime|]; [|discriminate].
  bind_inv H. destruct (decide _); bind_inv H; [|discriminate].
  by injection H as <-.
Qed.

(** The day index of a lesson entry is the day of its item. *)
Lemma lesson_day (obj : Obj.t) (x : TTentry.t) :
  body obj = Ok (Lesson x) ->
  day_of monday_before obj = Some (TTentry.day_index x).
Proof.
  unfold body, loop_body, day_of. intros H. bind_inv H. rewrite Ha.
  destruct (clamp_starttime _ _ _) as [starttime|]; [|discriminate].
  bind_inv H. destruct (decide _); bind_inv H; [|discriminate].
  by injection H as <-.
Qed.

End loop_body_facts.

(** C1. The clamping of the start time does not reach the period index of
    a lesson entry: a lesson item that starts at 06:45 or at 17:00 makes
    the whole call raise [KeyError], since the index of a lesson is looked
    up under the start time of the item.  The same items of another type
    are placed in the periods of 07:10 (index 0) and 16:30 (index 10), and
    an item of either type at 09:17 is logged and left out. *)
Theorem lesson_outside_hours_raises :
  Sample.normalise [Sample.item "card" "2024-03-05" "06:45" "fizyka" None]
    = Raise KeyError
  /\ Sample.normalise [Sample.item "card" "2024-03-05" "17:00" "fizyka" None]
     = Raise KeyError
  /\ grid_of (Sample.normalise
       [Sample.item "event" "2024-03-05" "06:45" "apel" None;
        Sample.item "event" "2024-03-05" "17:00" "apel" None])
     = Some empty_grid
  /\ absences Sample.no_overrides ∅ Sample.table Sample.monday false
       [Sample.item "event" "2024-03-05" "06:45" "apel" None;
        Sample.item "event" "2024-03-05" "17:00" "apel" None]
     = [ {| TTabsent.date := Sample.date_of 5; TTabsent.day_index := 1;
            TTabsent.duration := 1; TTabsent.group_raw := "";
            TTabsent.group := ""; TTabsent.name := None;
            TTabsent.time_index := 0 |};
         {| TTabsent.date := Sample.date_of 5; TTabsent.day_index := 1;
            TTabsent.duration := -1; TTabsent.group_raw := "";
            TTabsent.group := ""; TTabsent.name := None;
            TTabsent.time_index := 10 |} ]
  /\ Sample.normalise
       [Sample.item "card" "2024-03-05" "09:17" "fizyka" None;
        Sample.item "event" "2024-03-05" "09:17" "apel" None]
     = Ok {| ttdata := empty_grid; events := [] |}
  /\ logged_errors Sample.no_overrides ∅ Sample.table Sample.monday false
       [Sample.item "card" "2024-03-05" "09:17" "fizyka" None;
        Sample.item "event" "2024-03-05" "09:17" "apel" None]
     = Ok ["09:17"; "09:17"].
Proof. vm_compute. done. Qed.

(** The same for every table: a lesson item whose start time lies outside
    07:10-16:30 and is not itself a listed start time yields no entry. *)
Lemma lesson_outside_hours_never_placed
    (get_overrides : string -> gmap string string)
    (overrides_parse : gmap string string) (table : Table.t)
    (monday_before : Date.t) (raw : bool) (obj : Obj.t) (s : string)
    (start : Time.t) :
  Obj.type obj = Some "card" ->
  Obj.starttime obj = Some s ->
  Time.fromisoformat s = Ok start ->
  (start < Time.make 7 10 \/ Time.make 16 30 < start)%Z ->
  Table.periods_starttime table !! s = None ->
  is_ok (loop_body get_overrides overrides_parse table monday_before raw obj) = false.
Proof.
  intros Htype Hs Hstart Hout Hnone. unfold loop_body.
  destruct (parse_date _); [|done]. cbn [bind].
  destruct (Py.getitem _ _); [|done]. cbn [bind].
  destruct (Table.teachers _ _); [|done]. cbn [bind].
  destruct (Py.getitem _ _); [|done]. cbn [bind].
  destruct (Table.classrooms _ _); [|done]. cbn [bind].
  destruct (Table.subjects _ _); [|done]. cbn [bind].
  rewrite Hs. cbn [bind]. rewrite Hstart. cbn [bind].
  destruct (clamp_starttime _ _ _) eqn:Hclamp; [|exfalso].
  - destruct (Py.dict_get _ _); [|done]. cbn [bind].
    destruct (Table.periods _ _); [|done]. cbn [bind].
    destruct (Py.getitem _ _); [|done]. cbn [bind].
    rewrite Htype. rewrite decide_True by done.
    destruct (Py.getitem _ _); [|done]. cbn [bind].
    unfold Py.dict_get. by rewrite Hnone.
  - unfold clamp_starttime in Hclamp.
    destruct (start <? Time.make 7 10)%Z eqn:E1; [done|].
    destruct (Time.make 16 30 <? start)%Z eqn:E2; [done|].
    apply Z.ltb_ge in E1, E2. lia.
Qed.

(** C4. Every exception entry of the output has
    [time_index + duration <= 9]; it comes from an item of the feed, and
    when the period index plus the duration of the item (1 when there is
    none) exceeds 9 the stored duration is smaller and brings the sum to
    9, and otherwise it is the duration of the item. *)
Theorem absence_fits (get_overrides : string -> gmap string string)
    (overrides_parse : gmap string string) (table : Table.t)
    (monday_before : Date.t) (raw : bool) (resp : list Obj.t)
    (out : Output) (x : TTabsent.t) :
  get_timetable_data get_overrides overrides_parse table monday_before raw resp
    = Ok out ->
  x ∈ events out ->
  (TTabsent.time_index x + TTabsent.duration x <= 9)%Z
  /\ exists obj,
       obj ∈ resp
       /\ loop_body get_overrides overrides_parse table monday_before raw obj
          = Ok (Absence x)
       /\ let d := Py.or_int (Obj.durationperiods obj) 1 in
          ((9 < TTabsent.time_index x + d)%Z ->
           (TTabsent.time_index x + TTabsent.duration x = 9)%Z
           /\ (TTabsent.duration x < d)%Z)
          /\ ((TTabsent.time_index x + d <= 9)%Z -> TTabsent.duration x = d).
Proof.
  unfold get_timetable_data. intros H Hx. bind_inv H. injection H as <-.
  apply read_items_Ok in Ha as [_ Hev]. simpl in Hx. rewrite Hev in Hx.
  apply elem_of_absences in Hx as (obj & Hobj & Hbody).
  pose proof (absence_duration _ _ _ _ _ _ _ Hbody) as Hd. cbn zeta in Hd.
  assert (TTabsent.time_index x + TTabsent.duration x <= 9)%Z as Hle.
  { rewrite Hd. destruct (9 <? _)%Z eqn:E; [lia|]. apply Z.ltb_ge in E. lia. }
  split; [exact Hle|]. exists obj. split_and!; [done..| |].
  - intros Hgt. rewrite Hd. rewrite (proj2 (Z.ltb_lt _ _)) by lia. lia.
  - intros Hsmall. rewrite Hd. by rewrite (proj2 (Z.ltb_ge _ _)) by lia.
Qed.

Lemma absence_fits_witness :
  (TTabsent.time_index Sample.long_event_entry
   + TTabsent.duration Sample.long_event_entry <= 9)%Z.
Proof.
  refine (proj1 (absence_fits Sample.no_overrides ∅ Sample.table Sample.monday
                   false [Sample.long_event]
                   {| ttdata := empty_grid; events := [Sample.long_event_entry] |}
                   Sample.long_event_entry _ _)).
  - vm_compute. reflexivity.
  - simpl. left.
Defined.

(** C10. An item whose [durationperiods] is 0 is treated as an item with
    no [durationperiods]: the loop body gives the same result, the
    duration of a lesson entry is 1, and the duration of an exception entry
    is 1 before it is clamped against the bound 9. *)
Theorem zero_duration_is_absent_duration
    (get_overrides : string -> gmap string string)
    (overrides_parse : gmap string string) (table : Table.t)
    (monday_before : Date.t) (raw : bool) (obj : Obj.t) :
  let body := loop_body get_overrides overrides_parse table monday_before raw in
  let zero := Obj.with_durationperiods (Some 0%Z) obj in
  let absent := Obj.with_durationperiods None obj in
  body zero = body absent
  /\ (forall x, body zero = Ok (Lesson x) -> TTentry.duration x = 1%Z)
  /\ (forall x, body zero = Ok (Absence x) ->
        TTabsent.duration x =
          if (9 <? 1 + TTabsent.time_index x)%Z
          then (9 - TTabsent.time_index x)%Z else 1%Z).
Proof.
  intros body zero absent. split_and!.
  - reflexivity.
  - intros x H. by apply lesson_duration in H.
  - intros x H. by apply absence_duration in H.
Qed.

Lemma zero_duration_is_absent_duration_witness :
  TTentry.duration (Sample.lesson_entry "fizyka" 5 1) = 1%Z
  /\ TTabsent.duration
       {| TTabsent.date := Sample.date_of 5; TTabsent.day_index := 1;
          TTabsent.duration := 1; TTabsent.group_raw := "";
          TTabsent.group := ""; TTabsent.name := None;
          TTabsent.time_index := 1 |} = 1%Z.
Proof.
  split.
  - destruct (zero_duration_is_absent_duration Sample.no_overrides ∅
                Sample.table Sample.monday false
                (Sample.item "card" "2024-03-05" "08:00" "fizyka" (Some 7%Z)))
      as (_ & H & _).
    apply H. vm_compute. reflexivity.
  - destruct (zero_duration_is_absent_duration Sample.no_overrides ∅
                Sample.table Sample.monday false
                (Sample.item "event" "2024-03-05" "08:00" "apel" (Some 7%Z)))
      as (_ & _ & H).
    apply (H {| TTabsent.date := Sample.date_of 5; TTabsent.day_index := 1;
                TTabsent.duration := 1; TTabsent.group_raw := "";
                TTabsent.group := ""; TTabsent.name := None;
                TTabsent.time_index := 1 |}).
    vm_compute. reflexivity.
Defined.

(** ** Indexing *)

Lemma index_Ok (len : nat) (i : Z) (n : nat) :
  Py.index len i = Ok n ->
  (n < len)%nat
  /\ ((0 <= i)%Z -> i = Z.of_nat n)
  /\ ((i < 0)%Z -> i = (Z.of_nat n - Z.of_nat len)%Z).
Proof.
  unfold Py.index.
  destruct ((0 <=? i)%Z && (i <? Z.of_nat len)%Z) eqn:E1.
  - apply andb_true_iff in E1 as [H1%Z.leb_le H2%Z.ltb_lt].
    intros [= <-]. lia.
  - destruct ((- Z.of_nat len <=? i)%Z && (i <? 0)%Z) eqn:E2; [|discriminate].
    apply andb_true_iff in E2 as [H1%Z.leb_le H2%Z.ltb_lt].
    intros [= <-]. lia.
Qed.

Lemma getitem_Ok {A : Type} (l : list A) (i : Z) (x : A) :
  Py.getitem l i = Ok x ->
  exists n, Py.index (length l) i = Ok n /\ l !! n = Some x.
Proof.
  unfold Py.getitem. intros H. apply bind_ok in H as (n & Hn & H).
  exists n. split; [done|]. by destruct (l !! n) as [y|]; [injection H as ->|].
Qed.

Lemma setitem_Ok {A : Type} (l l' : list A) (i : Z) (x : A) :
  Py.setitem l i x = Ok l' ->
  exists n, Py.index (length l) i = Ok n /\ l' = <[n := x]> l.
Proof.
  unfold Py.setitem. intros H. apply bind_ok in H as (n & Hn & [= <-]). eauto.
Qed.

(** ** Runs and the dict of days *)

Section sequence_facts.
Context {A : Type}.
Variable key : A -> Z.

Lemma groupby_spec (l : list A) :
  Forall (fun g => Forall (fun e => key e = fst g /\ e ∈ l) (snd g)) (groupby key l).
Proof.
  induction l as [|a l IH]; simpl; [constructor|].
  assert (Forall (fun g => Forall (fun e => key e = fst g /\ e ∈ a :: l) (snd g))
            (groupby key l)) as IH'.
  { eapply Forall_impl; [exact IH|]. intros g Hg.
    eapply Forall_impl; [exact Hg|]. intros e [? ?]. split; [done|by right]. }
  destruct (groupby key l) as [|[k g] rest]; simpl.
  - repeat constructor.
  - apply Forall_cons in IH' as [Hg Hrest]. simpl in Hg.
    destruct (key a =? k)%Z eqn:E.
    + apply Z.eqb_eq in E. constructor; [|done]. simpl.
      constructor; [|done]. split; [done|by left].
    + constructor; [|by constructor]. simpl. repeat constructor.
Qed.

(** Every list of the dict holds elements of its own key. *)
Definition keyed (d : list (Z * list A)) : Prop :=
  Forall (fun b => Forall (fun e => key e = fst b) (snd b)) d.

Lemma dict_new_keyed (k : Z) (d : list (Z * list A)) :
  keyed d -> keyed (dict_new k d).
Proof.
  unfold keyed. induction d as [|[k' v] d IH]; simpl; intros H.
  - repeat constructor.
  - apply Forall_cons in H as [Hv Hd]. destruct (k =? k')%Z.
    + constructor; [constructor | done].
    + constructor; [done | by apply IH].
Qed.

Lemma dict_append_keyed (x : A) (d d' : list (Z * list A)) :
  keyed d -> dict_append (key x) x d = Ok d' -> keyed d'.
Proof.
  unfold keyed. revert d'. induction d as [|[k' v] d IH]; simpl; intros d' H.
  - discriminate.
  - apply Forall_cons in H as [Hv Hd]. destruct (key x =? k')%Z eqn:E.
    + apply Z.eqb_eq in E. intros [= <-]. constructor; [|done]. simpl in *.
      apply Forall_app. split; [done|]. by repeat constructor.
    + intros H. apply bind_ok in H as (d'' & Hd'' & [= <-]).
      constructor; [done | by apply IH].
Qed.

Lemma foldl_dict_new_keyed (l : list A) (d : list (Z * list A)) :
  keyed d -> keyed (foldl (fun d x => dict_new (key x) d) d l).
Proof.
  revert d. induction l as [|a l IH]; simpl; intros d H; [done|].
  by apply IH, dict_new_keyed.
Qed.
End sequence_facts.

(** ** The grid *)

Lemma make_days_keyed (data : list TTentry.t) (days : list (Z * list TTentry.t)) :
  make_days data = Ok days -> keyed TTentry.day_index days.
Proof.
  unfold make_days. apply for_each_inv.
  - intros x d d' _ Hd H. by eapply dict_append_keyed.
  - apply foldl_dict_new_keyed. constructor.
Qed.

Lemma empty_grid_shaped : shaped empty_grid /\ well_placed empty_grid.
Proof.
  split.
  - split; [done|]. unfold empty_grid. by repeat constructor.
  - intros d t row cell x Hrow Hcell Hx. exfalso.
    apply list_elem_of_lookup_2 in Hrow.
    unfold empty_grid in Hrow. apply elem_of_replicate in Hrow as [-> _].
    apply list_elem_of_lookup_2 in Hcell.
    apply elem_of_replicate in Hcell as [-> _]. by apply elem_of_nil in Hx.
Qed.

Lemma assign_keeps (idx x : Z) (y : list TTentry.t) (g g' : grid) :
  Forall (fun e => TTentry.day_index e = idx /\ TTentry.time_index e = x) y ->
  shaped g /\ well_placed g ->
  assign idx x y g = Ok g' ->
  shaped g' /\ well_placed g'.
Proof.
  intros Hy [[Hlen Hrows] Hwp] H. unfold assign in H. bind_inv H.
  apply getitem_Ok in Ha as (n & Hn & Hrow).
  apply setitem_Ok in Ha0 as (m & Hm & ->).
  apply setitem_Ok in H as (n' & Hn' & ->).
  assert (n' = n) as -> by congruence. clear Hn'.
  assert (length a = 11%nat) as Ha.
  { rewrite Forall_forall in Hrows. apply Hrows.
    by eapply list_elem_of_lookup_2. }
  rewrite Hlen in Hn. rewrite Ha in Hm.
  split; [split|].
  - by rewrite length_insert.
  - apply Forall_insert; [done|]. by rewrite length_insert.
  - intros d t row cell e Hd Ht He.
    apply list_lookup_insert_Some in Hd as [(<- & <- & _)|[Hne Hd]].
    + apply list_lookup_insert_Some in Ht as [(<- & <- & _)|[Hne Ht]].
      * rewrite Forall_forall in Hy.
        apply Hy in He as [-> ->]. done.
      * by apply (Hwp n t a cell e).
    + by apply (Hwp d t row cell e).
Qed.

Lemma fill_grid_keeps (days : list (Z * list TTentry.t)) (g : grid) :
  keyed TTentry.day_index days ->
  fill_grid days = Ok g -> shaped g /\ well_placed g.
Proof.
  intros Hdays. unfold fill_grid.
  apply (for_each_inv (fun g => shaped g /\ well_placed g)); [|apply empty_grid_shaped].
  intros d g1 g2 Hd Hg1.
  apply (for_each_inv (fun g => shaped g /\ well_placed g)); [|done].
  intros r g3 g4 Hr Hg3. apply assign_keeps; [|done].
  unfold keyed in Hdays. rewrite Forall_forall in Hdays.
  apply Hdays in Hd.
  pose proof (groupby_spec TTentry.time_index (snd d)) as Hruns.
  rewrite Forall_forall in Hruns. apply Hruns in Hr.
  eapply Forall_impl; [exact Hr|]. intros e [He1 He2]. split; [|done].
  rewrite Forall_forall in Hd. by apply Hd.
Qed.

Lemma assemble_keeps (data : list TTentry.t) (g : grid) :
  assemble data = Ok g -> shaped g /\ well_placed g.
Proof.
  unfold assemble. intros H. bind_inv H.
  eapply fill_grid_keeps; [|done]. by eapply make_days_keyed.
Qed.

(** C2, as stated, fails: a lesson dated the day before the Monday has
    day index -1, and [output[-1]] is the last row; the entry lies in the
    cell (4, 1), which is not the cell of its own indices. *)
Lemma entry_before_monday_is_misplaced :
  let x := Sample.lesson_entry "fizyka" 3 1 in
  grid_of (Sample.normalise [Sample.item "card" "2024-03-03" "08:00" "fizyka" None])
    = Some (<[4%nat := <[1%nat := [x]]> (replicate 11 [])]> empty_grid)
  /\ TTentry.day_index x = (-1)%Z
  /\ TTentry.day_index x <> 4%Z.
Proof. vm_compute. split_and!; done. Qed.

(** C2, amended. The grid of every output has 5 rows of 11 cells, and a
    lesson entry of the grid whose day index and period index are not
    negative lies in one cell only, the one that these indices address. *)
Theorem grid_shape_and_positions (get_overrides : string -> gmap string string)
    (overrides_parse : gmap string string) (table : Table.t)
    (monday_before : Date.t) (raw : bool) (resp : list Obj.t) (out : Output) :
  get_timetable_data get_overrides overrides_parse table monday_before raw resp
    = Ok out ->
  length (ttdata out) = 5%nat
  /\ Forall (fun row => length row = 11%nat) (ttdata out)
  /\ forall (d t : nat) (row : list (list TTentry.t)) (cell : list TTentry.t)
            (x : TTentry.t),
       ttdata out !! d = Some row -> row !! t = Some cell -> x ∈ cell ->
       (0 <= TTentry.day_index x)%Z -> (0 <= TTentry.time_index x)%Z ->
       TTentry.day_index x = Z.of_nat d /\ TTentry.time_index x = Z.of_nat t.
Proof.
  unfold get_timetable_data. intros H. bind_inv H. injection H as <-. simpl.
  apply assemble_keeps in Ha0 as [[Hlen Hrows] Hwp]. split_and!; [done..|].
  intros d t row cell x Hrow Hcell Hx Hday Htime.
  destruct (Hwp d t row cell x Hrow Hcell Hx) as [Hd Ht].
  apply index_Ok in Hd as (_ & Hd & _). apply index_Ok in Ht as (_ & Ht & _).
  auto.
Qed.

Lemma grid_shape_and_positions_witness :
  TTentry.day_index (Sample.lesson_entry "fizyka" 5 1) = 1%Z
  /\ TTentry.time_index (Sample.lesson_entry "fizyka" 5 1) = 1%Z.
Proof.
  pose (x := Sample.lesson_entry "fizyka" 5 1).
  pose (row := <[1%nat := [x]]> (replicate 11 ([] : list TTentry.t))).
  destruct (grid_shape_and_positions Sample.no_overrides ∅ Sample.table
              Sample.monday false
              [Sample.item "card" "2024-03-05" "08:00" "fizyka" None]
              {| ttdata := <[1%nat := row]> empty_grid; events := [] |})
    as (_ & _ & H).
  - vm_compute. reflexivity.
  - apply (H 1%nat 1%nat row [x] x).
    + reflexivity.
    + reflexivity.
    + left.
    + vm_compute. discriminate.
    + vm_compute. discriminate.
Defined.

(** ** The stable sort *)

Section sort_facts.
Context {A : Type}.
Variable key : A -> Z.


Lemma Forall_insert_by (P : A -> Prop) (x : A) (l : list A) :
  P x -> Forall P l -> Forall P (insert_by key x l).
Proof.
  intros Hx. induction 1 as [|y l Hy Hl IH]; simpl.
  - by repeat constructor.
  - destruct (key x <=? key y)%Z; by repeat constructor.
Qed.



(** The insertion does not move [x] past an element of its own key. *)
Lemma filter_insert_by (k : Z) (x : A) (l : list A) :
  filter (fun e => key e = k) (insert_by key x l)
  = filter (fun e => key e = k) (x :: l).
Proof.
  induction l as [|y l IH]; simpl; [done|].
  destruct (key x <=? key y)%Z eqn:E; [done|]. apply Z.leb_gt in E.
  rewrite (filter_cons _ y (insert_by key x l)), IH.
  rewrite !filter_cons. repeat case_decide; try done; lia.
Qed.

(** Stability: the elements of one key keep their order. *)
Lemma filter_sort_by (k : Z) (l : list A) :
  filter (fun e => key e = k) (sort_by key l) = filter (fun e => key e = k) l.
Proof.
  induction l as [|x l IH]; simpl; [done|].
  by rewrite filter_insert_by, !filter_cons, IH.
Qed.


End sort_facts.

(** ** Feeds given day by day *)

Section feed_facts.
Variable get_overrides : string -> gmap string string.
Variable overrides_parse : gmap string string.
Variable table : Table.t.
Variable monday_before : Date.t.
Variable raw : bool.

Let body := loop_body get_overrides overrides_parse table monday_before raw.

Local Abbreviation lessons_of :=
  (lessons get_overrides overrides_parse table monday_before raw).
Local Abbreviation on_day d := (fun obj : Obj.t => day_of monday_before obj = Some d).








End feed_facts.





(** * Further properties of the code *)

(** ** [canonicalize] *)

Lemma list_of_map_string (f : ascii -> ascii) (s : string) :
  list_ascii_of_string (Py.map_string f s) = map f (list_ascii_of_string s).
Proof. unfold Py.map_string. apply list_ascii_of_string_of_list_ascii. Qed.

Lemma list_of_canonicalize (x : string) :
  list_ascii_of_string (canonicalize x)
  = map (fun c => Py.lower_ascii (if Py.eqb_ascii c "_" then " "%char else c))
        (list_ascii_of_string x).
Proof.
  unfold canonicalize, Py.lower, Py.replace.
  by rewrite !list_of_map_string, map_map.
Qed.

Lemma canonical_char (c : ascii) :
  let c' := Py.lower_ascii (if Py.eqb_ascii c "_" then " "%char else c) in
  Py.lower_ascii (if Py.eqb_ascii c' "_" then " "%char else c') = c'
  /\ Py.eqb_ascii c' "_" = false
  /\ Py.is_upper c' = false.
Proof. destruct c as [[] [] [] [] [] [] [] []]; vm_compute; done. Qed.

Lemma string_of_list_inj (s t : string) :
  list_ascii_of_string s = list_ascii_of_string t -> s = t.
Proof.
  intros H. rewrite <- (string_of_list_ascii_of_string s),
    <- (string_of_list_ascii_of_string t). by rewrite H.
Qed.

Lemma length_list_of_string (s : string) :
  length (list_ascii_of_string s) = String.length s.
Proof. induction s as [|c s IH]; simpl; [done | by rewrite IH]. Qed.

(** X1. On ASCII names [canonicalize] is idempotent: a canonical name is
    left as it is. *)
Theorem canonicalize_idempotent (x : string) :
  Py.isascii x = true ->
  canonicalize (canonicalize x) = canonicalize x.
Proof.
  intros _. apply string_of_list_inj. rewrite list_of_canonicalize.
  rewrite list_of_canonicalize, map_map.
  apply map_ext. intros c. apply (canonical_char c).
Qed.

Lemma canonicalize_idempotent_witness :
  canonicalize (canonicalize "Chemia_Org") = canonicalize "Chemia_Org".
Proof. apply (canonicalize_idempotent "Chemia_Org"). reflexivity. Defined.

(** X2. The canonical form of an ASCII name has the length of the name,
    and holds no underscore and no capital. *)
Theorem canonicalize_shape (x : string) :
  Py.isascii x = true ->
  String.length (canonicalize x) = String.length x
  /\ Forall (fun c => c <> "_"%char /\ Py.is_upper c = false)
       (list_ascii_of_string (canonicalize x)).
Proof.
  intros _. split.
  - rewrite <- !length_list_of_string.
    by rewrite list_of_canonicalize, length_map.
  - rewrite list_of_canonicalize. apply Forall_map, Forall_true. intros c.
    destruct (canonical_char c) as (_ & Hu & Hc). split; [|done].
    intros E. rewrite E in Hu. discriminate Hu.
Qed.

Lemma canonicalize_shape_witness :
  String.length (canonicalize "Chemia_Org") = String.length "Chemia_Org"
  /\ Forall (fun c => c <> "_"%char /\ Py.is_upper c = false)
       (list_ascii_of_string (canonicalize "Chemia_Org")).
Proof. apply (canonicalize_shape "Chemia_Org"). reflexivity. Defined.

(** ** [prep_teacher] *)

Lemma lower_ascii_not_upper (c : ascii) : Py.is_upper (Py.lower_ascii c) = false.
Proof. destruct c as [[] [] [] [] [] [] [] []]; vm_compute; done. Qed.

Lemma lower_no_upper (s : string) :
  existsb Py.is_upper (list_ascii_of_string (Py.lower s)) = false.
Proof.
  unfold Py.lower. rewrite list_of_map_string.
  induction (list_ascii_of_string s) as [|c l IH]; simpl; [done|].
  by rewrite lower_ascii_not_upper, IH.
Qed.

(** X3. The table of teacher names is read under the abbreviation in lower
    case: for a teacher with an ASCII abbreviation, an entry whose key
    holds an ASCII capital is never used. *)
Theorem prep_teacher_ignores_cased_keys (overrides_parse : gmap string string)
    (k v : string) (x : option Teacher.t) :
  (forall t, x = Some t -> Py.isascii (Teacher.short t) = true) ->
  existsb Py.is_upper (list_ascii_of_string k) = true ->
  prep_teacher (<[k := v]> overrides_parse) x = prep_teacher overrides_parse x.
Proof.
  intros _ Hk. destruct x as [x|]; [|done]. unfold prep_teacher.
  rewrite lookup_insert_ne; [done|].
  intros ->. by rewrite lower_no_upper in Hk.
Qed.

Lemma prep_teacher_ignores_cased_keys_witness :
  prep_teacher (<[ "KOW" := "Jan Kowalski" ]> ∅) (Some {| Teacher.short := "KOW" |})
  = prep_teacher ∅ (Some {| Teacher.short := "KOW" |}).
Proof.
  apply (prep_teacher_ignores_cased_keys ∅ "KOW" "Jan Kowalski"
           (Some {| Teacher.short := "KOW" |})).
  - by intros t [= <-].
  - reflexivity.
Defined.

(** ** [prep_group] *)

(** X4. On an ASCII string [prep_group] raises in two ways only, both on
    a code with no override that the structured pattern matches:
    [KeyError] when the token is one letter that is none of the six
    language letters (and the index has at most 4300 digits), and
    [ValueError] when the index has more than 4300 digits.  Every other
    ASCII string is resolved. *)
Theorem prep_group_raises_in_two_ways
    (get_overrides : string -> gmap string string) (x : string) (e : exn) :
  Py.isascii x = true ->
  prep_group get_overrides x = Raise e ->
  get_overrides "group" !! x = None
  /\ exists reg,
       Re.match_ group_pattern x = Some reg
       /\ ((e = KeyError
            /\ String.length (Re.group reg 2) = 1%nat
            /\ language_names !! Py.lower (Re.group reg 2) = None
            /\ (N.of_nat (String.length (Re.group reg 3))
                <= Py.int_max_str_digits)%N)
           \/ (e = ValueError
               /\ (Py.int_max_str_digits
                   < N.of_nat (String.length (Re.group reg 3)))%N)).
Proof.
  intros _. unfold prep_group.
  destruct x as [|a x]; [discriminate|]. cbn [Py.truthy negb].
  destruct (get_overrides "group" !! String a x) as [v|] eqn:Hovr; [discriminate|].
  destruct (Re.match_ group_pattern (String a x)) as [reg|] eqn:Hm; [|discriminate].
  apply match_Some_sem in Hm as Hsem. destruct Hsem as (w & rest & _ & Hsem).
  apply group_pattern_captures in Hsem
    as (c & tok & ds & -> & Hc & Htok & Hne & Hds).
  change (Re.group (_ :: _) 1) with (string_of_list_ascii [c]).
  change (Re.group (_ :: _) 3) with (string_of_list_ascii ds).
  change (Re.group (_ :: _) 2) with (string_of_list_ascii tok).
  destruct (int_of_digits [c]) as [cnt ->]; [done| |by vm_compute|].
  { simpl. by rewrite (one_to_four_digit c Hc). }
  cbn [bind]. intros H. split; [done|]. eexists. split; [reflexivity|].
  change (Re.group (_ :: _) 3) with (string_of_list_ascii ds).
  change (Re.group (_ :: _) 2) with (string_of_list_ascii tok).
  rewrite !length_string_of_list.
  destruct (N.ltb Py.int_max_str_digits (N.of_nat (length ds))) eqn:Elen.
  - apply N.ltb_lt in Elen. rewrite (int_too_long ds Hds Elen) in H.
    injection H as <-. right. split; [reflexivity | exact Elen].
  - apply N.ltb_ge in Elen.
    destruct (int_of_digits ds Hne Hds Elen) as [idx Hidx].
    rewrite Hidx in H. cbn [bind] in H. left.
    destruct Htok as [->|(l & -> & _)]; [discriminate|].
    replace (String.eqb _ "dsd") with false in H
      by (simpl; by destruct (Ascii.eqb _ _)).
    unfold Py.dict_get in H.
    destruct (language_names !! _) as [name|] eqn:Hname; [discriminate|].
    injection H as <-. split_and!; first [reflexivity | exact Elen].
Qed.

Lemma prep_group_raises_in_two_ways_witness :
  Sample.no_overrides "group" !! "3xkl-1" = None
  /\ exists reg,
       Re.match_ group_pattern "3xkl-1" = Some reg
       /\ ((KeyError = KeyError
            /\ String.length (Re.group reg 2) = 1%nat
            /\ language_names !! Py.lower (Re.group reg 2) = None
            /\ (N.of_nat (String.length (Re.group reg 3))
                <= Py.int_max_str_digits)%N)
           \/ (KeyError = ValueError
               /\ (Py.int_max_str_digits
                   < N.of_nat (String.length (Re.group reg 3)))%N)).
Proof.
  apply (prep_group_raises_in_two_ways Sample.no_overrides "3xkl-1" KeyError).
  - vm_compute. reflexivity.
  - vm_compute. reflexivity.
Defined.

(** ** [trule] *)

(** X5. [trule] raises [IndexError] when it gets no positional argument
    and [TypeError] when the first one is not a datetime.  When it
    returns, the first argument is a datetime and the value is 6 hours
    or [1e18] seconds, never less than 6 hours; and for the same
    arguments the value does not decrease as the clock advances. *)
Theorem trule_edges (now : Z) (args : list arg) :
  (args = [] -> trule now args = Raise IndexError)
  /\ (forall s rest, args = AStr s :: rest -> trule now args = Raise TypeError)
  /\ (forall ttl, trule now args = Ok ttl ->
        (exists date rest, args = ADatetime date :: rest)
        /\ (ttl = 21600 \/ ttl = 10 ^ 18)%Z
        /\ (6 * 3600 <= ttl)%Z
        /\ forall later ttl', (now <= later)%Z ->
             trule later args = Ok ttl' -> (ttl <= ttl')%Z).
Proof.
  split_and!.
  - by intros ->.
  - by intros s rest ->.
  - intros ttl. destruct args as [|[date|s] rest]; [done| |done].
    unfold trule, Py.getitem, Py.index. simpl.
    intros H. split; [eauto|].
    destruct (now <? date)%Z eqn:E; injection H as <-.
    + split_and!; [by left | lia |]. intros later ttl' Hl.
      destruct (later <? date)%Z; intros [= <-]; lia.
    + split_and!; [by right | lia |]. intros later ttl' Hl.
      apply Z.ltb_ge in E.
      destruct (later <? date)%Z eqn:E'; [apply Z.ltb_lt in E'; lia|].
      intros [= <-]. lia.
Qed.

Lemma trule_edges_witness :
  (21600 <= 10 ^ 18)%Z.
Proof.
  destruct (trule_edges 1000 [ADatetime 2000; AStr "3a"]) as (_ & _ & H).
  destruct (H 21600%Z) as (_ & _ & _ & Hlater); [reflexivity|].
  apply (Hlater 5000%Z (10 ^ 18)%Z); [lia | reflexivity].
Defined.

(** ** The loop over the raw items *)

Section loop_facts.
Variable get_overrides : string -> gmap string string.
Variable overrides_parse : gmap string string.
Variable table : Table.t.
Variable monday_before : Date.t.
Variable raw : bool.

Local Abbreviation body :=
  (loop_body get_overrides overrides_parse table monday_before raw).
Local Abbreviation step :=
  (fun obj st => let! o := body obj in Ok (record o st)).

Lemma for_each_app {A S : Type} (l1 l2 : list A) (f : A -> S -> result S) (s : S) :
  for_each (l1 ++ l2) f s = let! s1 := for_each l1 f s in for_each l2 f s1.
Proof.
  revert s. induction l1 as [|a l1 IH]; intros s; simpl; [done|].
  destruct (f a s) as [s'|e]; simpl; [apply IH | done].
Qed.

End loop_facts.




(** ** The start time of an item *)

(** The steps of the loop body up to the clamping of the start time. *)
Ltac open_loop_body H :=
  unfold loop_body in H;
  apply bind_ok in H as (date_ & Hdate & H);
  apply bind_ok in H as (teacherid & Hteacherid & H);
  apply bind_ok in H as (teacher & Hteacher & H);
  apply bind_ok in H as (classroomid & Hclassroomid & H);
  apply bind_ok in H as (classroom & Hclassroom & H);
  apply bind_ok in H as (subject & Hsubject & H);
  apply bind_ok in H as (obj_starttime & Hobj_starttime & H);
  apply bind_ok in H as (start & Hstart & H).

(** The steps that follow for an item that is not left out. *)
Ltac open_branch H :=
  apply bind_ok in H as (period_id & Hperiod_id & H);
  apply bind_ok in H as (period & Hperiod & H);
  apply bind_ok in H as (group_raw & Hgroup_raw & H).

Ltac open_lesson H :=
  apply bind_ok in H as (color & Hcolor & H);
  apply bind_ok in H as (id & Hid & H);
  apply bind_ok in H as (time_index & Htime_index & H);
  apply bind_ok in H as (group & Hgroup & H);
  first [discriminate H | injection H as <-].

Ltac open_absence H :=
  apply bind_ok in H as (id & Hid & H);
  apply bind_ok in H as (time_index & Htime_index & H);
  apply bind_ok in H as (group & Hgroup & H);
  first [discriminate H | injection H as <-].

Lemma starttime_read (o : option string) (s : string) :
  match o with Some s => Ok s | None => Raise TypeError end = Ok s -> o = Some s.
Proof. destruct o; [by intros [= ->] | discriminate]. Qed.

(** X11. An empty list of teacher, classroom, group or colour identifiers
    is read as an absent one.  The lesson entry of such an item has the
    colour ["#d0ffd0"] and an empty group, and its teacher and classroom
    are those that the table gives for the identifier ["0"], which the
    table has to hold. *)
Theorem empty_lists_are_absent
    (get_overrides : string -> gmap string string)
    (overrides_parse : gmap string string) (table : Table.t)
    (monday_before : Date.t) (raw : bool) (obj : Obj.t) :
  let body := loop_body get_overrides overrides_parse table monday_before raw in
  body (with_lists (Some []) obj) = body (with_lists None obj)
  /\ forall x, body (with_lists (Some []) obj) = Ok (Lesson x) ->
       TTentry.color x = "#d0ffd0"
       /\ TTentry.group_raw x = "" /\ TTentry.group x = ""
       /\ exists t c,
            Table.teachers table "0" = Ok t
            /\ Table.classrooms table "0" = Ok c
            /\ TTentry.teacher x = prep_teacher overrides_parse t
            /\ TTentry.classroom x = prep_classroom get_overrides c.
Proof.
  intros body. split; [reflexivity|].
  intros x H. unfold body in H. open_loop_body H.
  destruct (clamp_starttime _ _ _) as [starttime|]; [|discriminate].
  open_branch H. destruct (decide _); [open_lesson H | open_absence H].
  simpl in Hteacherid, Hclassroomid, Hgroup_raw, Hcolor.
  injection Hteacherid as <-. injection Hclassroomid as <-.
  injection Hgroup_raw as <-. injection Hcolor as <-.
  simpl in Hgroup. injection Hgroup as <-.
  split_and!; [done..|]. by exists teacher, classroom.
Qed.

Lemma empty_lists_are_absent_witness :
  TTentry.color
    {| TTentry.subject := "fizyka"; TTentry.subject_short := "fizyka";
       TTentry.teacher := ""; TTentry.classroom := "";
       TTentry.color := "#d0ffd0"; TTentry.time_index := 1;
       TTentry.duration := 1; TTentry.group_raw := ""; TTentry.group := "";
       TTentry.date := Sample.date_of 5; TTentry.day_index := 1;
       TTentry.removed := false; TTentry.raw := None |} = "#d0ffd0".
Proof.
  destruct (empty_lists_are_absent Sample.no_overrides ∅ Sample.table
              Sample.monday false
              (Sample.item "card" "2024-03-05" "08:00" "fizyka" None))
    as [_ H].
  apply H. vm_compute. reflexivity.
Defined.

(** ** Where the entries of the grid come from *)

Section grid_sources.
Variable P : TTentry.t -> Prop.

Lemma sort_by_Forall {A : Type} (key : A -> Z) (Q : A -> Prop) (l : list A) :
  Forall Q l -> Forall Q (sort_by key l).
Proof.
  induction 1 as [|a l Ha _ IH]; simpl; [constructor|].
  by apply Forall_insert_by.
Qed.

Lemma make_days_Forall (data : list TTentry.t) (days : list (Z * list TTentry.t)) :
  Forall P data -> make_days data = Ok days ->
  Forall (fun b => Forall P (snd b)) days.
Proof.
  intros Hdata. unfold make_days.
  apply (for_each_inv (fun d => Forall (fun b => Forall P (snd b)) d)).
  - intros x d d' Hx Hd. rewrite Forall_forall in Hdata. apply Hdata in Hx.
    clear Hdata. revert d' Hd. generalize (TTentry.day_index x). intros k.
    induction d as [|[k' v] d IH]; simpl; intros d' Hd H; [discriminate|].
    apply Forall_cons in Hd as [Hv Hd]. destruct (k =? k')%Z.
    + injection H as <-. constructor; [|done]. simpl in *.
      apply Forall_app. split; [done | by repeat constructor].
    + apply bind_ok in H as (d'' & Hd'' & [= <-]).
      constructor; [done | by apply IH].
  - clear Hdata.
    generalize (@nil (Z * list TTentry.t))
               (Forall_nil_2 (fun b : Z * list TTentry.t => Forall P (snd b))).
    induction data as [|x data IH]; simpl; intros d Hd; [done|].
    apply IH. clear IH. generalize (TTentry.day_index x). intros k.
    induction Hd as [|[k' v] d Hv Hd IH]; simpl.
    + by repeat constructor.
    + destruct (k =? k')%Z; constructor; done.
Qed.

Lemma empty_grid_all : grid_all P empty_grid.
Proof.
  intros x (d & t & row & cell & Hrow & Hcell & Hx). exfalso.
  apply list_elem_of_lookup_2 in Hrow.
  unfold empty_grid in Hrow. apply elem_of_replicate in Hrow as [-> _].
  apply list_elem_of_lookup_2 in Hcell.
  apply elem_of_replicate in Hcell as [-> _]. by apply elem_of_nil in Hx.
Qed.

Lemma assign_all (idx x : Z) (y : list TTentry.t) (g g' : grid) :
  Forall P y -> grid_all P g -> assign idx x y g = Ok g' -> grid_all P g'.
Proof.
  intros Hy Hg H. unfold assign in H.
  apply bind_ok in H as (row & Hrow & H).
  apply bind_ok in H as (row' & Hrow' & H).
  apply getitem_Ok in Hrow as (n & Hn & Hrow).
  apply setitem_Ok in Hrow' as (m & Hm & ->).
  apply setitem_Ok in H as (n' & _ & ->).
  intros e (d & t & r & cell & Hd & Ht & He).
  apply list_lookup_insert_Some in Hd as [(_ & <- & _)|[_ Hd]].
  - apply list_lookup_insert_Some in Ht as [(_ & <- & _)|[_ Ht]].
    + rewrite Forall_forall in Hy. by apply Hy.
    + apply Hg. by exists n, t, row, cell.
  - apply Hg. by exists d, t, r, cell.
Qed.

Lemma fill_grid_all (days : list (Z * list TTentry.t)) (g : grid) :
  Forall (fun b => Forall P (snd b)) days ->
  fill_grid days = Ok g -> grid_all P g.
Proof.
  intros Hdays. unfold fill_grid.
  apply (for_each_inv (grid_all P)); [|apply empty_grid_all].
  intros d g1 g2 Hd Hg1. apply (for_each_inv (grid_all P)); [|done].
  intros r g3 g4 Hr Hg3. apply assign_all; [|done].
  rewrite Forall_forall in Hdays. apply Hdays in Hd.
  pose proof (groupby_spec TTentry.time_index (snd d)) as Hruns.
  rewrite Forall_forall in Hruns. apply Hruns in Hr.
  eapply Forall_impl; [exact Hr|]. intros e [_ He].
  rewrite Forall_forall in Hd. by apply Hd.
Qed.

Lemma assemble_all (data : list TTentry.t) (g : grid) :
  Forall (fun y => P (bogus_group y)) data ->
  assemble data = Ok g -> grid_all P g.
Proof.
  intros Hdata. unfold assemble. intros H.
  apply bind_ok in H as (days & Hdays & H).
  eapply fill_grid_all; [|exact H].
  eapply make_days_Forall; [|exact Hdays].
  apply Forall_map. by apply sort_by_Forall.
Qed.
End grid_sources.

Section grid_entries.
Variable get_overrides : string -> gmap string string.
Variable overrides_parse : gmap string string.
Variable table : Table.t.
Variable monday_before : Date.t.
Variable raw : bool.

Local Abbreviation body :=
  (loop_body get_overrides overrides_parse table monday_before raw).
Local Abbreviation normalise :=
  (get_timetable_data get_overrides overrides_parse table monday_before raw).

Lemma elem_of_lessons (resp : list Obj.t) (y : TTentry.t) :
  y ∈ lessons get_overrides overrides_parse table monday_before raw resp <->
  exists obj, obj ∈ resp /\ body obj = Ok (Lesson y).
Proof.
  unfold lessons. rewrite list_elem_of_In, in_flat_map. split.
  - intros (obj & Hobj & Hy). exists obj. split; [by apply list_elem_of_In|].
    destruct (body obj) as [[z|z|z]|e]; simpl in Hy; try done.
    by destruct Hy as [->|[]].
  - intros (obj & Hobj & Hy). exists obj. split; [by apply list_elem_of_In|].
    rewrite Hy. by left.
Qed.

(** Every entry of the grid is the entry made of a lesson item of the
    feed, after the rule on the group of "religia". *)
Lemma grid_entry_source (resp : list Obj.t) (out : Output) (x : TTentry.t) :
  normalise resp = Ok out -> in_grid x (ttdata out) ->
  exists obj y, obj ∈ resp /\ body obj = Ok (Lesson y) /\ x = bogus_group y.
Proof.
  unfold get_timetable_data. intros H Hx.
  apply bind_ok in H as (st & Hst & H).
  apply bind_ok in H as (g & Hg & [= <-]). simpl in Hx.
  apply read_items_Ok in Hst as [Hdata _].
  revert x Hx. eapply assemble_all; [|exact Hg].
  rewrite Hdata. apply Forall_forall. intros y Hy.
  apply elem_of_lessons in Hy as (obj & Hobj & Hy). eauto.
Qed.
End grid_entries.

(** X12. In every output, an entry of the grid whose resolved subject is
    ["religia"] has the group ["religia 1"], whatever its group was. *)
Theorem religia_has_its_group
    (get_overrides : string -> gmap string string)
    (overrides_parse : gmap string string) (table : Table.t)
    (monday_before : Date.t) (raw : bool) (resp : list Obj.t)
    (out : Output) (x : TTentry.t) :
  get_timetable_data get_overrides overrides_parse table monday_before raw resp
    = Ok out ->
  in_grid x (ttdata out) ->
  TTentry.subject x = "religia" ->
  TTentry.group x = "religia 1".
Proof.
  intros H Hx. apply (grid_entry_source _ _ _ _ _ _ _ _ H) in Hx
    as (obj & y & _ & _ & ->).
  unfold bogus_group. destruct (String.eqb (TTentry.subject y) "religia") eqn:E.
  - done.
  - intros Hs. apply String.eqb_neq in E. done.
Qed.

(** X13. The grid holds lessons only, and holds them as they were read:
    every entry comes from an item of type ["card"] of the feed, has the
    day index of that item's date, its flag [removed], and its duration
    (1 when the item has none); the duration of a lesson is not reduced,
    however far it reaches. *)
Theorem grid_entries_are_lessons_of_the_feed
    (get_overrides : string -> gmap string string)
    (overrides_parse : gmap string string) (table : Table.t)
    (monday_before : Date.t) (raw : bool) (resp : list Obj.t)
    (out : Output) (x : TTentry.t) :
  get_timetable_data get_overrides overrides_parse table monday_before raw resp
    = Ok out ->
  in_grid x (ttdata out) ->
  exists obj,
    obj ∈ resp
    /\ Obj.type obj = Some "card"
    /\ day_of monday_before obj = Some (TTentry.day_index x)
    /\ TTentry.duration x = Py.or_int (Obj.durationperiods obj) 1
    /\ TTentry.removed x = Py.or_false (Obj.removed obj).
Proof.
  intros H Hx. apply (grid_entry_source _ _ _ _ _ _ _ _ H) in Hx
    as (obj & y & Hobj & Hy & ->).
  exists obj. split; [done|].
  pose proof (lesson_day _ _ _ _ _ _ _ Hy) as Hday.
  pose proof (lesson_duration _ _ _ _ _ _ _ Hy) as Hdur.
  assert (TTentry.day_index (bogus_group y) = TTentry.day_index y
          /\ TTentry.duration (bogus_group y) = TTentry.duration y
          /\ TTentry.removed (bogus_group y) = TTentry.removed y) as (-> & -> & ->).
  { unfold bogus_group. by destruct (String.eqb _ _). }
  split_and!; [|done..|].
  - open_loop_body Hy.
    destruct (clamp_starttime _ _ _) as [starttime|]; [|discriminate].
    open_branch Hy. by destruct (decide _); [|open_absence Hy].
  - open_loop_body Hy.
    destruct (clamp_starttime _ _ _) as [starttime|]; [|discriminate].
    open_branch Hy. by destruct (decide _); [open_lesson Hy | open_absence Hy].
Qed.

(** X14. The flag [raw] decides the detail of every entry of the grid:
    without it no entry has a back-reference; with it every entry has
    one, holding the subject, teacher and classroom records from which
    its subject, teacher and classroom names were resolved. *)
Theorem raw_flag_decides_the_detail
    (get_overrides : string -> gmap string string)
    (overrides_parse : gmap string string) (table : Table.t)
    (monday_before : Date.t) (raw : bool) (resp : list Obj.t)
    (out : Output) (x : TTentry.t) :
  get_timetable_data get_overrides overrides_parse table monday_before raw resp
    = Ok out ->
  in_grid x (ttdata out) ->
  if raw then
    exists r,
      TTentry.raw x = Some r
      /\ TTentry.subject x = prep_subject get_overrides (TTentryRaw.subject r)
      /\ TTentry.subject_short x
         = prep_subject_short get_overrides (TTentryRaw.subject r)
      /\ TTentry.teacher x = prep_teacher overrides_parse (TTentryRaw.teacher r)
      /\ TTentry.classroom x
         = prep_classroom get_overrides (TTentryRaw.classroom r)
  else TTentry.raw x = None.
Proof.
  intros H Hx. apply (grid_entry_source _ _ _ _ _ _ _ _ H) in Hx
    as (obj & y & Hobj & Hy & ->).
  assert (TTentry.raw (bogus_group y) = TTentry.raw y
          /\ TTentry.subject (bogus_group y) = TTentry.subject y
          /\ TTentry.subject_short (bogus_group y) = TTentry.subject_short y
          /\ TTentry.teacher (bogus_group y) = TTentry.teacher y
          /\ TTentry.classroom (bogus_group y) = TTentry.classroom y)
    as (-> & -> & -> & -> & ->).
  { unfold bogus_group. by destruct (String.eqb _ _). }
  open_loop_body Hy.
  destruct (clamp_starttime _ _ _) as [starttime|]; [|discriminate].
  open_branch Hy. destruct (decide _); [open_lesson Hy | open_absence Hy].
  simpl. destruct raw; [|done]. eexists. split; [done|]. done.
Qed.

(** ** The dict of days, exactly *)

Section dict_facts.
Context {A : Type}.
Variable key : A -> Z.

Lemma dict_new_keys (k : Z) (d : list (Z * list A)) :
  NoDup (map fst d) ->
  NoDup (map fst (dict_new k d))
  /\ (forall k', k' ∈ map fst (dict_new k d) <-> k' = k \/ k' ∈ map fst d).
Proof.
  induction d as [|[k1 v] d IH]; simpl.
  - intros _. split; [repeat constructor; by intros ?%elem_of_nil|].
    intros k'. rewrite elem_of_cons. tauto.
  - intros [Hk1 Hd]%NoDup_cons. destruct (k =? k1)%Z eqn:E.
    + apply Z.eqb_eq in E as ->. simpl. split; [by apply NoDup_cons|].
      intros k'. rewrite elem_of_cons. tauto.
    + apply Z.eqb_neq in E. destruct (IH Hd) as [IH1 IH2]. simpl. split.
      * apply NoDup_cons. split; [|done]. rewrite IH2.
        intros [->|?]; done.
      * intros k'. rewrite !elem_of_cons, IH2. tauto.
Qed.

Lemma dict_new_empty (k : Z) (d : list (Z * list A)) :
  Forall (fun b => snd b = []) d -> Forall (fun b => snd b = []) (dict_new k d).
Proof.
  induction 1 as [|[k1 v] d Hv Hd IH]; simpl; [by repeat constructor|].
  destruct (k =? k1)%Z; by constructor.
Qed.

Lemma foldl_dict_new (l : list A) (d : list (Z * list A)) :
  NoDup (map fst d) -> Forall (fun b => snd b = []) d ->
  let d' := foldl (fun d x => dict_new (key x) d) d l in
  NoDup (map fst d') /\ Forall (fun b => snd b = []) d'
  /\ (forall k, k ∈ map fst d' <-> (exists x, x ∈ l /\ key x = k) \/ k ∈ map fst d).
Proof.
  revert d. induction l as [|a l IH]; simpl; intros d Hd He.
  - split_and!; [done..|]. intros k. split; [auto|].
    by intros [(x & ?%elem_of_nil & _)|].
  - destruct (dict_new_keys (key a) d Hd) as [H1 H2].
    destruct (IH (dict_new (key a) d) H1 (dict_new_empty _ _ He)) as (I1 & I2 & I3).
    split_and!; [done..|]. intros k. rewrite I3, H2. split.
    + intros [(x & Hx & Hk)|[->|Hk]].
      * left. exists x. split; [by right|done].
      * left. exists a. split; [by left|done].
      * by right.
    + intros [(x & [->|Hx]%elem_of_cons & Hk)|Hk]; eauto.
Qed.

Lemma dict_append_extend (x : A) (d : list (Z * list A)) :
  NoDup (map fst d) -> key x ∈ map fst d ->
  dict_append (key x) x d = Ok (dict_extend key [x] d).
Proof.
  induction d as [|[k v] d IH]; simpl; [by intros _ ?%elem_of_nil|].
  intros [Hk Hd]%NoDup_cons Hx. unfold dict_extend. simpl.
  destruct (key x =? k)%Z eqn:E.
  - apply Z.eqb_eq in E. rewrite filter_cons_True, filter_nil by done.
    do 3 f_equal. symmetry. etransitivity; [|apply map_id].
    apply map_ext_in. intros [k' v'] Hin%list_elem_of_In. simpl.
    rewrite filter_cons_False, filter_nil, app_nil_r; [done|].
    intros E'. apply Hk. rewrite <- E, E'.
    apply list_elem_of_fmap. by exists (k', v').
  - apply Z.eqb_neq in E. apply elem_of_cons in Hx as [Hx|Hx]; [done|].
    fold (dict_extend key [x] d). rewrite (IH Hd Hx). simpl.
    by rewrite filter_cons_False, filter_nil, app_nil_r by done.
Qed.

Lemma dict_extend_keys (l : list A) (d : list (Z * list A)) :
  map fst (dict_extend key l d) = map fst d.
Proof. unfold dict_extend. rewrite map_map. by apply map_ext. Qed.

Lemma dict_extend_app (l1 l2 : list A) (d : list (Z * list A)) :
  dict_extend key l2 (dict_extend key l1 d) = dict_extend key (l1 ++ l2) d.
Proof.
  unfold dict_extend. rewrite map_map. apply map_ext. intros [k v]. simpl.
  by rewrite filter_app, app_assoc.
Qed.

Lemma for_each_dict_append (l : list A) (d : list (Z * list A)) :
  NoDup (map fst d) -> (forall x, x ∈ l -> key x ∈ map fst d) ->
  for_each l (fun x d => dict_append (key x) x d) d = Ok (dict_extend key l d).
Proof.
  revert d. induction l as [|a l IH]; intros d Hd Hl; simpl.
  - f_equal. unfold dict_extend. symmetry. etransitivity; [|apply map_id].
    apply map_ext. intros [k v]. simpl. by rewrite filter_nil, app_nil_r.
  - rewrite dict_append_extend; [|done|apply Hl; by left]. simpl.
    rewrite IH.
    + by rewrite dict_extend_app.
    + by rewrite dict_extend_keys.
    + intros x Hx. rewrite dict_extend_keys. apply Hl. by right.
Qed.
End dict_facts.

(** [make_days] never raises: the dict has one entry for every day index
    of the data, holding the entries of that day in the order of the
    data. *)
Lemma make_days_spec (data : list TTentry.t) :
  exists days,
    make_days data = Ok days
    /\ NoDup (map fst days)
    /\ (forall k, k ∈ map fst days <-> exists x, x ∈ data /\ TTentry.day_index x = k)
    /\ Forall (fun b => snd b = filter (fun x => TTentry.day_index x = fst b) data) days.
Proof.
  unfold make_days.
  destruct (foldl_dict_new TTentry.day_index data [] (NoDup_nil_2) (Forall_nil_2 _))
    as (H1 & H2 & H3).
  set (d0 := foldl _ _ _) in *. cbn zeta in *.
  exists (dict_extend TTentry.day_index data d0). split_and!.
  - apply for_each_dict_append; [done|]. intros x Hx. apply H3. left. eauto.
  - by rewrite dict_extend_keys.
  - intros k. rewrite dict_extend_keys, H3. split; [|auto].
    by intros [|?%elem_of_nil].
  - unfold dict_extend. apply Forall_map. eapply Forall_impl; [exact H2|].
    intros [k v]. simpl. by intros ->.
Qed.

(** ** Runs, and the loops of the assembly as one list of assignments *)

Section run_facts.
Context {A : Type}.
Variable key : A -> Z.

Lemma groupby_concat (l : list A) : concat (map snd (groupby key l)) = l.
Proof.
  induction l as [|a l IH]; simpl; [done|].
  destruct (groupby key l) as [|[k g] rest]; simpl in *.
  - by rewrite <- IH.
  - destruct (key a =? k)%Z; simpl; by rewrite <- IH.
Qed.

Lemma groupby_nonempty (l : list A) :
  Forall (fun g => snd g <> []) (groupby key l).
Proof.
  induction l as [|a l IH]; simpl; [constructor|].
  destruct (groupby key l) as [|[k g] rest]; simpl.
  - by repeat constructor.
  - apply Forall_cons in IH as [Hg IH].
    destruct (key a =? k)%Z; repeat constructor; done.
Qed.

Lemma elem_of_insert_by (x a : A) (l : list A) :
  x ∈ insert_by key a l <-> x = a \/ x ∈ l.
Proof.
  induction l as [|b l IH]; simpl.
  - by rewrite elem_of_cons.
  - destruct (key a <=? key b)%Z.
    + by rewrite elem_of_cons.
    + rewrite !elem_of_cons, IH. tauto.
Qed.

Lemma elem_of_sort_by (x : A) (l : list A) : x ∈ sort_by key l <-> x ∈ l.
Proof.
  induction l as [|a l IH]; simpl; [done|].
  by rewrite elem_of_insert_by, elem_of_cons, IH.
Qed.
End run_facts.

Lemma for_each_map {A B S : Type} (f : A -> B) (l : list A)
    (body : B -> S -> result S) (s : S) :
  for_each (map f l) body s = for_each l (fun a => body (f a)) s.
Proof.
  revert s. induction l as [|a l IH]; intros s; simpl; [done|].
  destruct (body (f a) s); simpl; [apply IH | done].
Qed.

Lemma for_each_flat_map {A B S : Type} (f : A -> list B) (l : list A)
    (body : B -> S -> result S) (s : S) :
  for_each (flat_map f l) body s
  = for_each l (fun a s => for_each (f a) body s) s.
Proof.
  revert s. induction l as [|a l IH]; intros s; simpl; [done|].
  rewrite for_each_app. destruct (for_each (f a) body s); simpl; [apply IH | done].
Qed.

Lemma for_each_raise {A S : Type} (l : list A) (body : A -> S -> result S)
    (s : S) (e : exn) :
  for_each l body s = Raise e -> exists a s1, a ∈ l /\ body a s1 = Raise e.
Proof.
  revert s. induction l as [|a l IH]; intros s; simpl; [discriminate|].
  destruct (body a s) as [s'|e'] eqn:E; simpl.
  - intros H. apply IH in H as (b & s1 & Hb & H). exists b, s1. split; [by right|done].
  - intros [= <-]. exists a, s. split; [by left|done].
Qed.

Lemma fill_grid_writes (days : list (Z * list TTentry.t)) :
  fill_grid days = for_each (writes days) write empty_grid.
Proof.
  unfold fill_grid, writes. rewrite for_each_flat_map.
  generalize empty_grid. induction days as [|d days IH]; intros g; simpl; [done|].
  rewrite for_each_map. unfold write at 1. simpl.
  destruct (for_each _ _ g); simpl; [apply IH | done].
Qed.

(** ** When an assignment is accepted *)

Lemma index_ok_iff (len : nat) (i : Z) :
  (exists n, Py.index len i = Ok n) <-> (- Z.of_nat len <= i < Z.of_nat len)%Z.
Proof.
  unfold Py.index.
  destruct ((0 <=? i)%Z && (i <? Z.of_nat len)%Z) eqn:E1.
  - apply andb_true_iff in E1 as [H1%Z.leb_le H2%Z.ltb_lt].
    split; [lia | eauto].
  - destruct ((- Z.of_nat len <=? i)%Z && (i <? 0)%Z) eqn:E2.
    + apply andb_true_iff in E2 as [H1%Z.leb_le H2%Z.ltb_lt].
      split; [lia | eauto].
    + split; [by intros [n [=]]|]. intros H. exfalso.
      apply andb_false_iff in E1, E2.
      rewrite Z.leb_gt, Z.ltb_ge in E1. rewrite Z.leb_gt, Z.ltb_ge in E2. lia.
Qed.

Lemma index_raise (len : nat) (i : Z) (e : exn) :
  Py.index len i = Raise e -> e = IndexError.
Proof.
  unfold Py.index. destruct (_ && _); [discriminate|].
  destruct (_ && _); [discriminate|]. by intros [= <-].
Qed.

Lemma assign_raise (idx x : Z) (y : list TTentry.t) (g : grid) (e : exn) :
  assign idx x y g = Raise e -> e = IndexError.
Proof.
  unfold assign, Py.getitem, Py.setitem.
  destruct (Py.index (length g) idx) as [n|e1] eqn:E1; simpl;
    [|intros H; injection H as H; subst; by eapply index_raise].
  destruct (_ !! _) as [row|]; simpl; [|congruence].
  destruct (Py.index (length row) x) as [m|e2] eqn:E2; simpl;
    [|intros H; injection H as H; subst; by eapply index_raise].
  discriminate.
Qed.

Lemma assign_shaped (idx x : Z) (y : list TTentry.t) (g : grid) :
  shaped g ->
  ((exists g', assign idx x y g = Ok g') <-> (-5 <= idx < 5)%Z /\ (-11 <= x < 11)%Z)
  /\ (forall g', assign idx x y g = Ok g' -> shaped g').
Proof.
  intros [Hlen Hrows]. rewrite Forall_forall in Hrows. split; [split|].
  - intros [g' H]. unfold assign in H.
    apply bind_ok in H as (row & Hrow & H).
    apply bind_ok in H as (row' & Hrow' & H).
    apply getitem_Ok in Hrow as (n & Hn & Hrow).
    apply setitem_Ok in Hrow' as (m & Hm & ->).
    rewrite (Hrows row) in Hm by by eapply list_elem_of_lookup_2.
    rewrite Hlen in Hn. split.
    + apply (index_ok_iff 5 idx). eauto.
    + apply (index_ok_iff 11 x). eauto.
  - intros [Hidx Hx]. apply (index_ok_iff 5 idx) in Hidx as [n Hn].
    apply (index_ok_iff 11 x) in Hx as [m Hm].
    unfold assign, Py.getitem, Py.setitem. rewrite Hlen, Hn. simpl.
    destruct (index_Ok _ _ _ Hn) as [Hlt _].
    destruct (lookup_lt_is_Some_2 g n) as [row Hrow]; [lia|].
    rewrite Hrow. simpl.
    rewrite (Hrows row) by by eapply list_elem_of_lookup_2.
    rewrite Hm. simpl. eauto.
  - intros g' H. unfold assign in H.
    apply bind_ok in H as (row & Hrow & H).
    apply bind_ok in H as (row' & Hrow' & H).
    apply getitem_Ok in Hrow as (n & Hn & Hrow).
    apply setitem_Ok in Hrow' as (m & Hm & ->).
    apply setitem_Ok in H as (n' & _ & ->). split.
    + by rewrite length_insert.
    + apply Forall_forall. intros r Hr.
      apply list_elem_of_lookup in Hr as [j Hj].
      apply list_lookup_insert_Some in Hj as [(_ & <- & _)|[_ Hj]].
      * rewrite length_insert. apply Hrows. by eapply list_elem_of_lookup_2.
      * apply Hrows. by eapply list_elem_of_lookup_2.
Qed.

Lemma writes_accepted (ws : list (Z * Z * list TTentry.t)) :
  forall g, shaped g ->
    ((exists g', for_each ws write g = Ok g') <-> Forall write_ok ws)
    /\ (forall g', for_each ws write g = Ok g' -> shaped g').
Proof.
  induction ws as [|w ws IH]; intros g Hg; simpl.
  - split; [split; [constructor | eauto]|]. by intros g' [= <-].
  - destruct (assign_shaped (fst (fst w)) (snd (fst w)) (snd w) g Hg) as [Hiff Hsh].
    fold (write w g) in Hiff, Hsh.
    destruct (write w g) as [g1|e] eqn:E; simpl.
    + destruct (IH g1 (Hsh g1 eq_refl)) as [IH1 IH2]. split; [|done].
      rewrite IH1, Forall_cons. split; [|tauto].
      intros H. split; [|done]. apply Hiff. eauto.
    + split; [|discriminate]. split; [by intros [g' [=]]|].
      intros [Hw _]%Forall_cons. apply Hiff in Hw as [g' [=]].
Qed.

(** ** When the grid is produced *)

Lemma elem_of_writes (w : Z * Z * list TTentry.t) (days : list (Z * list TTentry.t)) :
  w ∈ writes days <->
  exists b r, b ∈ days /\ r ∈ groupby TTentry.time_index (snd b)
              /\ w = (fst b, fst r, snd r).
Proof.
  unfold writes. rewrite list_elem_of_In, in_flat_map. split.
  - intros (b & Hb & Hw). apply in_map_iff in Hw as (r & <- & Hr).
    exists b, r. by rewrite !list_elem_of_In.
  - intros (b & r & Hb & Hr & ->). exists b. rewrite <- list_elem_of_In.
    split; [done|]. apply in_map_iff. exists r. by rewrite <- list_elem_of_In.
Qed.

(** The assignments address exactly the cells of the entries. *)
Lemma writes_addresses (data : list TTentry.t) (days : list (Z * list TTentry.t)) :
  make_days data = Ok days ->
  forall d t,
    (exists y, (d, t, y) ∈ writes days) <->
    (exists x, x ∈ data /\ TTentry.day_index x = d /\ TTentry.time_index x = t).
Proof.
  intros Hdays d t.
  destruct (make_days_spec data) as (days' & H' & _ & Hkeys & Hvals).
  rewrite H' in Hdays. injection Hdays as ->.
  rewrite Forall_forall in Hvals. split.
  - intros (y & (b & r & Hb & Hr & [= -> -> ->])%elem_of_writes).
    pose proof (groupby_nonempty TTentry.time_index (snd b)) as Hne.
    pose proof (groupby_spec TTentry.time_index (snd b)) as Hsp.
    rewrite Forall_forall in Hne, Hsp. specialize (Hne r Hr). specialize (Hsp r Hr).
    destruct (snd r) as [|x y]; [done|].
    apply Forall_cons in Hsp as [[Ht Hx] _].
    rewrite (Hvals b Hb) in Hx. apply list_elem_of_filter in Hx as [Hd Hx]. eauto.
  - intros (x & Hx & <- & <-).
    assert (TTentry.day_index x ∈ map fst days) as Hk by (apply Hkeys; eauto).
    apply list_elem_of_fmap in Hk as (b & Hb1 & Hb).
    assert (x ∈ snd b) as Hxb.
    { rewrite (Hvals b Hb). by apply list_elem_of_filter. }
    rewrite <- (groupby_concat TTentry.time_index (snd b)) in Hxb.
    apply list_elem_of_In, in_concat in Hxb as (y & Hy & Hxy).
    apply in_map_iff in Hy as (r & <- & Hr).
    apply list_elem_of_In in Hr, Hxy.
    pose proof (groupby_spec TTentry.time_index (snd b)) as Hsp.
    rewrite Forall_forall in Hsp. specialize (Hsp r Hr).
    rewrite Forall_forall in Hsp. destruct (Hsp x Hxy) as [Ht _].
    exists (snd r). apply elem_of_writes. exists b, r. by rewrite Hb1, Ht.
Qed.

Lemma bogus_group_indices (y : TTentry.t) :
  TTentry.day_index (bogus_group y) = TTentry.day_index y
  /\ TTentry.time_index (bogus_group y) = TTentry.time_index y.
Proof. unfold bogus_group. by destruct (String.eqb _ _). Qed.

Lemma assemble_accepted (data : list TTentry.t) :
  ((exists g, assemble data = Ok g) <-> Forall addressable data)
  /\ (forall e, assemble data = Raise e -> e = IndexError).
Proof.
  unfold assemble.
  set (data' := map bogus_group (sort_by TTentry.day_index data)).
  destruct (make_days_spec data') as (days & Hdays & _).
  rewrite Hdays. cbn [bind]. rewrite fill_grid_writes.
  destruct (writes_accepted (writes days) empty_grid (proj1 empty_grid_shaped))
    as [Hiff _].
  split.
  - rewrite Hiff, !Forall_forall. split.
    + intros Hw x Hx.
      destruct (proj2 (writes_addresses data' days Hdays
                         (TTentry.day_index x) (TTentry.time_index x)))
        as [y Hy].
      { exists (bogus_group x). destruct (bogus_group_indices x) as [-> ->].
        split; [|done]. apply list_elem_of_fmap. exists x. split; [done|].
        by apply elem_of_sort_by. }
      apply (Hw _ Hy).
    + intros Hdata [[d t] y] Hw.
      destruct (proj1 (writes_addresses data' days Hdays d t))
        as (x' & Hx' & <- & <-); [eauto|].
      apply list_elem_of_fmap in Hx' as (x & -> & Hx%elem_of_sort_by).
      unfold write_ok. simpl. destruct (bogus_group_indices x) as [-> ->].
      by apply Hdata.
  - intros e He. apply for_each_raise in He as ([[d t] y] & g & _ & He).
    by apply assign_raise in He.
Qed.


(** ** What a cell holds *)

Section sorted_runs.
Context {A : Type}.
Variable key : A -> Z.

Lemma filter_none (P : A -> Prop) `{!forall x, Decision (P x)} (l : list A) :
  (forall x, x ∈ l -> ~ P x) -> filter P l = [].
Proof.
  induction l as [|a l IH]; intros Hl; [done|].
  rewrite filter_cons_False by (apply Hl; by left).
  apply IH. intros x Hx. apply Hl. by right.
Qed.

Lemma groupby_head (a : A) (l : list A) :
  exists g rest, groupby key (a :: l) = (key a, g) :: rest.
Proof.
  simpl. destruct (groupby key l) as [|[k g] rest]; [eauto|].
  destruct (key a =? k)%Z eqn:E; [|eauto].
  apply Z.eqb_eq in E as <-. eauto.
Qed.

Lemma groupby_keys (l : list A) (k : Z) :
  k ∈ map fst (groupby key l) -> exists x, x ∈ l /\ key x = k.
Proof.
  intros (r & -> & Hr)%list_elem_of_fmap.
  pose proof (groupby_nonempty key l) as Hne.
  pose proof (groupby_spec key l) as Hsp.
  rewrite Forall_forall in Hne, Hsp. specialize (Hne r Hr). specialize (Hsp r Hr).
  destruct (snd r) as [|x y]; [done|].
  apply Forall_cons in Hsp as [[Hk Hx] _]. eauto.
Qed.

(** In a list sorted by key every key makes one run, which holds all the
    elements of that key. *)
Lemma groupby_sorted (l : list A) :
  StronglySorted (fun a b => (key a <= key b)%Z) l ->
  NoDup (map fst (groupby key l))
  /\ Forall (fun r => snd r = filter (fun x => key x = fst r) l) (groupby key l).
Proof.
  induction 1 as [|a l Hl IH Ha]; [split; constructor|].
  destruct IH as [IH1 IH2]. rewrite Forall_forall in Ha.
  assert (forall k, k ∈ map fst (groupby key l) -> (key a <= k)%Z) as Hle.
  { intros k (x & Hx & <-)%groupby_keys. by apply Ha. }
  simpl. destruct (groupby key l) as [|[k g] rest] eqn:E.
  - assert (l = []) as ->.
    { rewrite <- (groupby_concat key l). by rewrite E. }
    split; [repeat constructor; by intros ?%elem_of_nil|].
    repeat constructor. simpl. by rewrite filter_cons_True, filter_nil.
  - simpl in IH1. apply NoDup_cons in IH1 as [Hk Hrest].
    apply Forall_cons in IH2 as [Hg Hrs]. simpl in Hg.
    destruct (key a =? k)%Z eqn:Eak.
    + apply Z.eqb_eq in Eak. simpl. split; [by apply NoDup_cons|].
      constructor; simpl.
      * by rewrite filter_cons_True, Hg.
      * apply Forall_forall. intros r Hr. rewrite Forall_forall in Hrs.
        rewrite (Hrs r Hr) at 1.
        rewrite filter_cons_False; [done|]. intros Ea. apply Hk.
        rewrite <- Eak, Ea. apply list_elem_of_fmap. eauto.
    + apply Z.eqb_neq in Eak.
      assert (key a < k)%Z as Hlt.
      { destruct l as [|b l]; [discriminate E|].
        destruct (groupby_head b l) as (g' & rest' & E'). rewrite E' in E.
        injection E as <- _ _. assert (key a <= key b)%Z by (apply Ha; by left).
        lia. }
      assert (forall x, x ∈ l -> key x <> key a) as Hfresh.
      { intros x Hx. destruct l as [|b l]; [by apply elem_of_nil in Hx|].
        destruct (groupby_head b l) as (g' & rest' & E'). rewrite E' in E.
        injection E as <- _ _. inversion Hl as [|? ? _ Hb]; subst.
        rewrite Forall_forall in Hb.
        apply elem_of_cons in Hx as [->|Hx]; [lia|].
        specialize (Hb x Hx). simpl in Hb. lia. }
      simpl. split.
      * apply NoDup_cons. split; [|by apply NoDup_cons].
        intros Hin. change (key a ∈ map fst ((k, g) :: rest)) in Hin.
        rewrite <- E in Hin. apply groupby_keys in Hin as (x & Hx & Hkx).
        by apply (Hfresh x).
      * constructor; [|constructor]; simpl.
        -- rewrite filter_cons_True by done. f_equal. symmetry.
           apply filter_none. intros x Hx. by apply Hfresh.
        -- rewrite filter_cons_False; [done|]. lia.
        -- apply Forall_forall. intros r Hr. rewrite Forall_forall in Hrs.
           rewrite (Hrs r Hr) at 1.
           rewrite filter_cons_False; [done|]. intros Ea.
           assert (key a ∈ map fst (groupby key l)) as Hin.
           { rewrite E. right. rewrite Ea. apply list_elem_of_fmap. eauto. }
           apply groupby_keys in Hin as (x & Hx & Hkx). by apply (Hfresh x).
Qed.
End sorted_runs.

Lemma assign_cell (i x : Z) (y : list TTentry.t) (g g1 : grid) :
  assign i x y g = Ok g1 -> (0 <= i)%Z -> (0 <= x)%Z ->
  forall d t,
    cell_at g1 d t =
      if decide (Z.of_nat d = i /\ Z.of_nat t = x) then Some y else cell_at g d t.
Proof.
  intros H Hi Hx d t. unfold assign in H.
  apply bind_ok in H as (row & Hrow & H).
  apply bind_ok in H as (row' & Hrow' & H).
  apply getitem_Ok in Hrow as (n & Hn & Hrow).
  apply setitem_Ok in Hrow' as (m & Hm & ->).
  apply setitem_Ok in H as (n' & Hn' & ->).
  assert (n' = n) as -> by congruence.
  apply index_Ok in Hn as (Hnlt & Hni & _). apply index_Ok in Hm as (Hmlt & Hmx & _).
  specialize (Hni Hi). specialize (Hmx Hx). unfold cell_at.
  destruct (decide (d = n)) as [->|Hd].
  - rewrite list_lookup_insert_eq, Hrow by done.
    destruct (decide (t = m)) as [->|Ht].
    + rewrite list_lookup_insert_eq by done. by rewrite decide_True.
    + rewrite list_lookup_insert_ne by done. rewrite decide_False; [done|]. lia.
  - rewrite list_lookup_insert_ne by done. rewrite decide_False; [done|]. lia.
Qed.

(** With assignments to distinct cells, a cell holds what was assigned to
    it, and a cell that no assignment addresses is left as it was. *)
Lemma writes_cells (ws : list (Z * Z * list TTentry.t)) :
  forall g g',
    for_each ws write g = Ok g' ->
    Forall write_from_start ws -> NoDup (map fst ws) ->
    forall d t,
      (forall y, (Z.of_nat d, Z.of_nat t, y) ∈ ws -> cell_at g' d t = Some y)
      /\ ((forall y, (Z.of_nat d, Z.of_nat t, y) ∉ ws) -> cell_at g' d t = cell_at g d t).
Proof.
  induction ws as [|[[i x] y0] ws IH]; intros g g' H Hpos Hnd d t; simpl in H.
  - injection H as <-. split; [by intros y ?%elem_of_nil | done].
  - apply bind_ok in H as (g1 & Hg1 & H).
    apply Forall_cons in Hpos as [[Hi Hx] Hpos]. simpl in Hi, Hx, Hnd.
    apply NoDup_cons in Hnd as [Hfresh Hnd].
    destruct (IH g1 g' H Hpos Hnd d t) as [IH1 IH2].
    pose proof (assign_cell i x y0 g g1 Hg1 Hi Hx d t) as Hcell.
    split.
    + intros y [[= <- <- <-]|Hy]%elem_of_cons; [|by apply IH1].
      rewrite IH2, Hcell; [by rewrite decide_True|].
      intros y' Hy'. apply Hfresh. apply list_elem_of_fmap. by eexists (_, _, y').
    + intros Hnone. rewrite IH2, Hcell.
      * rewrite decide_False; [done|]. intros [<- <-]. apply (Hnone y0). by left.
      * intros y Hy. apply (Hnone y). by right.
Qed.

Lemma writes_cons (b : Z * list TTentry.t) (days : list (Z * list TTentry.t)) :
  map fst (writes (b :: days))
  = map (fun r => (fst b, fst r)) (groupby TTentry.time_index (snd b))
    ++ map fst (writes days).
Proof. unfold writes. simpl. by rewrite map_app, map_map. Qed.

Lemma writes_distinct (days : list (Z * list TTentry.t)) :
  NoDup (map fst days) ->
  Forall (fun b => NoDup (map fst (groupby TTentry.time_index (snd b)))) days ->
  NoDup (map fst (writes days)).
Proof.
  induction days as [|b days IH]; [constructor|].
  change (map fst (b :: days)) with (fst b :: map fst days).
  intros [Hb Hnd]%NoDup_cons [Hruns Hrest]%Forall_cons.
  rewrite writes_cons. apply NoDup_app. split_and!.
  - clear -Hruns. induction (groupby TTentry.time_index (snd b)) as [|r rs IHr];
      simpl in *; [constructor|].
    apply NoDup_cons in Hruns as [Hr Hrs]. apply NoDup_cons. split; [|by apply IHr].
    intros (r' & [= Heq] & Hr')%list_elem_of_fmap. apply Hr.
    rewrite Heq. apply list_elem_of_fmap. eauto.
  - intros [d t] (r & [= -> ->] & _)%list_elem_of_fmap
      (w & Hw & (b' & r' & Hb' & _ & ->)%elem_of_writes)%list_elem_of_fmap.
    simpl in Hw. injection Hw as Hd _. apply Hb. rewrite Hd.
    apply list_elem_of_fmap. eauto.
  - by apply IH.
Qed.

Lemma filter_map_same {A : Type} (P : A -> Prop) `{!forall x, Decision (P x)}
    (f : A -> A) (l : list A) :
  (forall x, P (f x) <-> P x) -> filter P (map f l) = map f (filter P l).
Proof.
  intros Hf. induction l as [|a l IH]; simpl; [done|].
  rewrite !filter_cons, IH. destruct (decide (P a)) as [Ha|Ha].
  - by rewrite decide_True by by apply Hf.
  - by rewrite decide_False by by rewrite Hf.
Qed.

Lemma empty_grid_cell (d t : nat) (cell : list TTentry.t) :
  cell_at empty_grid d t = Some cell -> cell = [].
Proof.
  unfold cell_at. destruct (_ !! d) as [row|] eqn:Hrow; [|discriminate].
  intros Hcell. apply list_elem_of_lookup_2 in Hrow.
  unfold empty_grid in Hrow. apply elem_of_replicate in Hrow as [-> _].
  apply list_elem_of_lookup_2 in Hcell.
  by apply elem_of_replicate in Hcell as [-> _].
Qed.

(** The cells after the assembly, when no index is negative and the
    periods ascend within every day. *)
Lemma assemble_cells (data : list TTentry.t) (g : grid) :
  assemble data = Ok g ->
  Forall (fun x => (0 <= TTentry.day_index x)%Z /\ (0 <= TTentry.time_index x)%Z) data ->
  periods_ascend data ->
  forall d t cell,
    cell_at g d t = Some cell ->
    cell = map bogus_group (filter (at_slot (Z.of_nat d) (Z.of_nat t)) data).
Proof.
  intros H Hpos Hasc d t cell Hcell. unfold assemble in H.
  set (sorted := sort_by TTentry.day_index data) in *.
  set (data' := map bogus_group sorted) in *.
  apply bind_ok in H as (days & Hdays & H). rewrite fill_grid_writes in H.
  destruct (make_days_spec data') as (days' & H' & Hnd & Hkeys & Hvals).
  rewrite H' in Hdays. injection Hdays as ->.
  assert (forall P : TTentry.t -> Prop, forall HP : (forall x, Decision (P x)),
            (forall x, P (bogus_group x) <-> P x) ->
            filter P data' = map bogus_group (filter P sorted)) as Hmove.
  { intros P HP HPf. by apply filter_map_same. }
  assert (forall k, filter (fun x => TTentry.day_index x = k) data'
                    = map bogus_group (filter (fun x => TTentry.day_index x = k) data))
    as Hday.
  { intros k. rewrite Hmove.
    - unfold sorted. by rewrite filter_sort_by.
    - intros x. by destruct (bogus_group_indices x) as [-> _]. }
  assert (Forall (fun b => StronglySorted
                     (fun a c => (TTentry.time_index a <= TTentry.time_index c)%Z)
                     (snd b)) days) as Hsorted.
  { rewrite Forall_forall in Hvals. apply Forall_forall. intros b Hb.
    rewrite (Hvals b Hb), Hday.
    eapply (StronglySorted_fmap bogus_group); [|apply (Hasc (fst b))].
    intros a c Hac. simpl in Hac. destruct (bogus_group_indices a) as [_ ->].
    by destruct (bogus_group_indices c) as [_ ->]. }
  assert (forall d' t' y, (d', t', y) ∈ writes days ->
            y = filter (at_slot d' t') data') as Hpayload.
  { intros d' t' y (b & r & Hb & Hr & [= -> -> ->])%elem_of_writes.
    rewrite Forall_forall in Hsorted, Hvals.
    destruct (groupby_sorted TTentry.time_index (snd b) (Hsorted b Hb)) as [_ Hruns].
    rewrite Forall_forall in Hruns. rewrite (Hruns r Hr).
    rewrite (Hvals b Hb) at 1. apply list_filter_filter. }
  assert (Forall write_from_start (writes days)) as Hstart.
  { apply Forall_forall. intros [[d' t'] y] Hw.
    destruct (proj1 (writes_addresses data' days H' d' t'))
      as (x' & Hx' & <- & <-); [eauto|].
    apply list_elem_of_fmap in Hx' as (x & -> & Hx%elem_of_sort_by).
    unfold write_from_start. simpl. destruct (bogus_group_indices x) as [-> ->].
    rewrite Forall_forall in Hpos. by apply Hpos. }
  assert (NoDup (map fst (writes days))) as Hdistinct.
  { apply writes_distinct; [done|]. rewrite Forall_forall in Hsorted.
    apply Forall_forall. intros b Hb.
    by destruct (groupby_sorted TTentry.time_index (snd b) (Hsorted b Hb)). }
  destruct (writes_cells (writes days) empty_grid g H Hstart Hdistinct d t)
    as [Hhit Hmiss].
  assert (cell = filter (at_slot (Z.of_nat d) (Z.of_nat t)) data') as ->.
  { destruct (filter (at_slot (Z.of_nat d) (Z.of_nat t)) data') as [|x rest] eqn:E.
    - rewrite Hmiss in Hcell; [by apply empty_grid_cell in Hcell|].
      intros y Hy. apply Hpayload in Hy as Hy'. rewrite E in Hy'. subst y.
      destruct (proj1 (writes_addresses data' days H' (Z.of_nat d) (Z.of_nat t)))
        as (x & Hx & Hxd & Hxt); [eauto|].
      assert (x ∈ filter (at_slot (Z.of_nat d) (Z.of_nat t)) data') as Hin
        by by apply list_elem_of_filter.
      rewrite E in Hin. by apply elem_of_nil in Hin.
    - assert (x ∈ filter (at_slot (Z.of_nat d) (Z.of_nat t)) data') as Hin
        by (rewrite E; left).
      apply list_elem_of_filter in Hin as [[Hxt Hxd] Hx].
      destruct (proj2 (writes_addresses data' days H' (Z.of_nat d) (Z.of_nat t)))
        as [y Hy]; [eauto|].
      rewrite (Hhit y Hy) in Hcell. injection Hcell as <-.
      rewrite (Hpayload _ _ _ Hy). done. }
  rewrite Hmove.
  - f_equal. unfold sorted, at_slot.
    rewrite <- !(list_filter_filter (fun x => TTentry.time_index x = Z.of_nat t)
                   (fun x => TTentry.day_index x = Z.of_nat d)).
    by rewrite filter_sort_by.
  - intros x. unfold at_slot. by destruct (bogus_group_indices x) as [-> ->].
Qed.

(** X16. When no lesson of the feed has a negative index and, within
    every day, the lessons come by ascending period, every cell of the
    grid holds exactly the lessons of its day and period, in the order of
    the feed (after the rule on "religia"); so no lesson is lost. *)
Theorem cells_hold_the_lessons_of_their_slot
    (get_overrides : string -> gmap string string)
    (overrides_parse : gmap string string) (table : Table.t)
    (monday_before : Date.t) (raw : bool) (resp : list Obj.t) (out : Output) :
  let lessons := lessons get_overrides overrides_parse table monday_before raw resp in
  get_timetable_data get_overrides overrides_parse table monday_before raw resp
    = Ok out ->
  Forall (fun x => (0 <= TTentry.day_index x)%Z /\ (0 <= TTentry.time_index x)%Z)
    lessons ->
  periods_ascend lessons ->
  (forall d t cell,
     cell_at (ttdata out) d t = Some cell ->
     cell = map bogus_group (filter (at_slot (Z.of_nat d) (Z.of_nat t)) lessons))
  /\ (forall x, x ∈ lessons -> in_grid (bogus_group x) (ttdata out)).
Proof.
  intros lessons H Hpos Hasc. unfold get_timetable_data in H.
  apply bind_ok in H as (st & Hst & H).
  apply bind_ok in H as (g & Hg & [= <-]). simpl.
  apply read_items_Ok in Hst as [Hdata _]. fold lessons in Hdata.
  rewrite Hdata in Hg.
  pose proof (assemble_cells lessons g Hg Hpos Hasc) as Hcells.
  split; [done|]. intros x Hx.
  destruct (assemble_accepted lessons) as [Hiff _].
  assert (Forall addressable lessons) as Haddr by (apply Hiff; eauto).
  rewrite Forall_forall in Haddr, Hpos.
  destruct (Haddr x Hx) as [Hd Ht]. destruct (Hpos x Hx) as [Hd0 Ht0].
  destruct (assemble_keeps lessons g Hg) as [[Hlen Hrows] _].
  destruct (lookup_lt_is_Some_2 g (Z.to_nat (TTentry.day_index x))) as [row Hrow];
    [lia|].
  rewrite Forall_forall in Hrows.
  pose proof (Hrows row (list_elem_of_lookup_2 _ _ _ Hrow)) as Hrowlen.
  destruct (lookup_lt_is_Some_2 row (Z.to_nat (TTentry.time_index x))) as [cell Hc];
    [lia|].
  exists (Z.to_nat (TTentry.day_index x)), (Z.to_nat (TTentry.time_index x)), row, cell.
  split_and!; [done..|].
  rewrite (Hcells (Z.to_nat (TTentry.day_index x)) (Z.to_nat (TTentry.time_index x)) cell).
  - apply list_elem_of_fmap. exists x. split; [done|].
    apply list_elem_of_filter. split; [|done]. unfold at_slot. lia.
  - unfold cell_at. by rewrite Hrow.
Qed.

Lemma religia_has_its_group_witness :
  TTentry.group Sample2.religia_entry = "religia 1".
Proof.
  apply (religia_has_its_group Sample.no_overrides ∅ Sample.table Sample.monday
           false [Sample2.religia]
           {| ttdata := Sample2.one_cell 1 1 [Sample2.religia_entry]; events := [] |}
           Sample2.religia_entry).
  - vm_compute. reflexivity.
  - exists 1%nat, 1%nat, (<[1%nat := [Sample2.religia_entry]]> (replicate 11 [])),
      [Sample2.religia_entry].
    split_and!; [reflexivity | reflexivity | left].
  - reflexivity.
Defined.

Lemma grid_entries_are_lessons_of_the_feed_witness :
  exists obj,
    obj ∈ [Sample2.assembly; Sample2.fizyka]
    /\ Obj.type obj = Some "card"
    /\ day_of Sample.monday obj
       = Some (TTentry.day_index (Sample.lesson_entry "fizyka" 5 1))
    /\ TTentry.duration (Sample.lesson_entry "fizyka" 5 1)
       = Py.or_int (Obj.durationperiods obj) 1
    /\ TTentry.removed (Sample.lesson_entry "fizyka" 5 1)
       = Py.or_false (Obj.removed obj).
Proof.
  apply (grid_entries_are_lessons_of_the_feed Sample.no_overrides ∅ Sample.table
           Sample.monday false [Sample2.assembly; Sample2.fizyka]
           {| ttdata := Sample2.one_cell 1 1 [Sample.lesson_entry "fizyka" 5 1];
              events := [Sample2.assembly_entry] |}).
  - vm_compute. reflexivity.
  - exists 1%nat, 1%nat,
      (<[1%nat := [Sample.lesson_entry "fizyka" 5 1]]> (replicate 11 [])),
      [Sample.lesson_entry "fizyka" 5 1].
    split_and!; [reflexivity | reflexivity | left].
Defined.

Lemma raw_flag_decides_the_detail_witness :
  TTentry.raw (Sample.lesson_entry "fizyka" 5 1) = None.
Proof.
  apply (raw_flag_decides_the_detail Sample.no_overrides ∅ Sample.table
           Sample.monday false [Sample2.fizyka]
           {| ttdata := Sample2.one_cell 1 1 [Sample.lesson_entry "fizyka" 5 1];
              events := [] |}).
  - vm_compute. reflexivity.
  - exists 1%nat, 1%nat,
      (<[1%nat := [Sample.lesson_entry "fizyka" 5 1]]> (replicate 11 [])),
      [Sample.lesson_entry "fizyka" 5 1].
    split_and!; [reflexivity | reflexivity | left].
Defined.


Lemma cells_hold_the_lessons_of_their_slot_witness :
  in_grid (bogus_group (Sample.lesson_entry "chemia" 5 1)) Sample2.two_days_grid.
Proof.
  assert (lessons Sample.no_overrides ∅ Sample.table Sample.monday false
            (feed Sample.two_days)
          = [Sample.lesson_entry "fizyka" 4 1; Sample.lesson_entry "matematyka" 5 1;
             Sample.lesson_entry "chemia" 5 1])
    as E by (vm_compute; reflexivity).
  destruct (cells_hold_the_lessons_of_their_slot Sample.no_overrides ∅
              Sample.table Sample.monday false (feed Sample.two_days)
              {| ttdata := Sample2.two_days_grid;
                 events := [] |})
    as [_ H].
  - vm_compute. reflexivity.
  - rewrite E. repeat (constructor; [vm_compute; split; discriminate|]). constructor.
  - rewrite E. intros d. rewrite !filter_cons, filter_nil.
    repeat case_decide; repeat constructor; simpl; lia.
  - apply H. rewrite E. right. right. left.
Defined.

(** When the periods of a day do not ascend, a lesson can be lost: the
    later run of a period takes the cell of the earlier one. *)
Remark lesson_lost_when_periods_interleave :
  grid_of (Sample.normalise
    [Sample.item "card" "2024-03-05" "08:00" "fizyka" None;
     Sample.item "card" "2024-03-05" "08:55" "chemia" None;
     Sample.item "card" "2024-03-05" "08:00" "matematyka" None])
  = Some (<[1%nat := <[2%nat := [Sample.lesson_entry "chemia" 5 2]]>
                       (<[1%nat := [Sample.lesson_entry "matematyka" 5 1]]>
                          (replicate 11 []))]> empty_grid).
Proof. vm_compute. reflexivity. Qed.
